(** * Sweet shop bot: catalogue, cart store, screen renderers and callback router

    A shallow embedding of [bot.py].  Python [int] is [Z]; [str] is
    [string] holding the UTF-8 bytes of the source literal; an ordered
    [dict] whose iteration order is observable (the catalogue, the cart)
    is an association list in insertion order; the per-user session bag
    [context.user_data], of which only single keys are ever looked up, is
    a [gmap string pyobj].  The coroutines are sequential programs over
    the session bag that record, in order, the calls they await on the
    callback query or on the message; the debug log line is left out. *)

From Stdlib Require Import ZArith String Ascii List DecimalString DecimalPos DecimalZ Lia.
From stdpp Require Import gmap strings list.
Import ListNotations.

Local Open Scope Z_scope.
Local Open Scope list_scope.

(** ** Python primitives used by the module *)

Module Py.

(** [str(n)] for an [int], as used by f-string interpolation. *)
Definition str_of_int (n : Z) : string := NilZero.string_of_int (Z.to_int n).

(** The line feed of the ["\n"] escapes. *)
Definition nl : string := String (ascii_of_nat 10) EmptyString.

(** [sep.join(lines)]. *)
Definition join (sep : string) (lines : list string) : string :=
  String.concat sep lines.

(** [s.startswith(p)]. *)
Fixpoint startswith (s p : string) {struct p} : bool :=
  match p with
  | EmptyString => true
  | String c p' =>
      match s with
      | EmptyString => false
      | String c' s' => Ascii.eqb c' c && startswith s' p'
      end
  end.

(** [s.partition(sep)] for a one-character separator: the text before
    and after the first occurrence, when there is one. *)
Fixpoint cut (sep : ascii) (s : string) : option (string * string) :=
  match s with
  | EmptyString => None
  | String c rest =>
      if Ascii.eqb c sep then Some (EmptyString, rest)
      else match cut sep rest with
           | Some (before, after) => Some (String c before, after)
           | None => None
           end
  end.

(** [s.split(sep, 1)]: at most one split, at the first separator. *)
Definition split1 (sep : ascii) (s : string) : list string :=
  match cut sep s with
  | Some (before, after) => [before; after]
  | None => [s]
  end.

(** [xs[i]]; [None] stands for [IndexError]. *)
Definition index {A} (xs : list A) (i : nat) : option A := nth_error xs i.

(** An insertion-ordered [dict] with [str] keys. *)
Definition dict (V : Type) : Type := list (string * V).

(** [d.get(k)]. *)
Fixpoint get {V} (d : dict V) (k : string) : option V :=
  match d with
  | [] => None
  | (k', v) :: d' => if String.eqb k' k then Some v else get d' k
  end.

(** [d.get(k, default)]. *)
Definition get_or {V} (d : dict V) (k : string) (default : V) : V :=
  match get d k with
  | Some v => v
  | None => default
  end.

(** [d[k] = v]: an existing key keeps its position, a new key goes last. *)
Fixpoint setitem {V} (d : dict V) (k : string) (v : V) : dict V :=
  match d with
  | [] => [(k, v)]
  | (k', v') :: d' =>
      if String.eqb k' k then (k', v) :: d' else (k', v') :: setitem d' k v
  end.

(** [d.clear()]. *)
Definition clear {V} (d : dict V) : dict V := [].

(** [d.items()], [d.values()] and iteration over the keys. *)
Definition items {V} (d : dict V) : list (string * V) := d.
Definition values {V} (d : dict V) : list V := map snd d.
Definition keys {V} (d : dict V) : list string := map fst d.

(** Truth value of a container: [not xs] is [negb (truthy xs)]. *)
Definition truthy {A} (xs : list A) : bool :=
  match xs with
  | [] => false
  | _ :: _ => true
  end.

End Py.

(** ** Catalogue *)

Record Sweet := {
  id : string;
  name : string;
  price_rub : Z;
  description : string
}.

Definition SWEET_CATALOGUE : Py.dict (list Sweet) :=
  [ ("chocolate",
     [ {| id := "milk_chocolate";
          name := "Молочный шоколад";
          price_rub := 220;
          description := "Классическая плитка молочного шоколада с легкой"
                         +:+ " карамельной ноткой." |};
       {| id := "dark_truffle";
          name := "Трюфель 72%";
          price_rub := 280;
          description := "Темный шоколад с насыщенным вкусом какао и"
                         +:+ " хрустящими какао-крупками." |} ]);
    ("caramel",
     [ {| id := "salted_caramel";
          name := "Соленая карамель";
          price_rub := 150;
          description := "Нежная тянучка на сливках с легкой ноткой морской"
                         +:+ " соли." |};
       {| id := "hazelnut_caramel";
          name := "Карамель с фундуком";
          price_rub := 190;
          description := "Мягкая карамель, украшенная дробленым фундуком." |} ]);
    ("cookies",
     [ {| id := "choco_chip_cookie";
          name := "Печенье с шоколадной крошкой";
          price_rub := 120;
          description := "Домашнее печенье из сливочного теста, щедро"
                         +:+ " посыпанное шоколадом." |};
       {| id := "red_velvet_cookie";
          name := "Печенье «Красный бархат»";
          price_rub := 130;
          description := "Мягкое печенье с нежным кремовым послевкусием." |} ]) ].

Definition _category_title (category : string) : string :=
  let titles : Py.dict string :=
    [ ("chocolate", "Шоколад"); ("caramel", "Карамель"); ("cookies", "Печенье") ] in
  Py.get_or titles category category.

(** The inner loop of [_find_sweet_by_id]: the first sweet of one category
    with the given id. *)
Fixpoint find_in_sweets (sweets : list Sweet) (sweet_id : string) : option Sweet :=
  match sweets with
  | [] => None
  | sweet :: rest =>
      if String.eqb (id sweet) sweet_id then Some sweet
      else find_in_sweets rest sweet_id
  end.

(** The outer loop: categories in order, returning at the first hit. *)
Fixpoint find_in_categories (categories : list (list Sweet)) (sweet_id : string)
  : option Sweet :=
  match categories with
  | [] => None
  | sweets :: rest =>
      match find_in_sweets sweets sweet_id with
      | Some sweet => Some sweet
      | None => find_in_categories rest sweet_id
      end
  end.

Definition _find_sweet_by_id (sweet_id : string) : option Sweet :=
  find_in_categories (Py.values SWEET_CATALOGUE) sweet_id.

(** ** Screen renderers *)

Record InlineKeyboardButton := {
  text : string;
  callback_data : string
}.

(** [InlineKeyboardMarkup(rows)]: the rows of buttons. *)
Definition InlineKeyboardMarkup : Type := list (list InlineKeyboardButton).

Definition _format_currency (amount_rub : Z) : string :=
  Py.str_of_int amount_rub +:+ " ₽".

Definition back_button : InlineKeyboardButton :=
  {| text := "⬅️ Назад"; callback_data := "menu" |}.

Definition _build_categories_keyboard : InlineKeyboardMarkup :=
  let buttons :=
    map (fun category =>
           [ {| text := _category_title category;
                callback_data := "cat:" +:+ category |} ])
        (Py.keys SWEET_CATALOGUE) in
  buttons ++ [ [ {| text := "🛒 Корзина"; callback_data := "cart:view" |} ] ].

(** The one-button row that [_build_sweets_keyboard] appends for a sweet. *)
Definition sweet_row (sweet : Sweet) : list InlineKeyboardButton :=
  [ {| text := name sweet +:+ " — " +:+ _format_currency (price_rub sweet);
       callback_data := "item:" +:+ id sweet |} ].

(** One turn of the [for sweet in sweets] loop of [_build_sweets_keyboard]. *)
Definition sweets_keyboard_step (buttons : InlineKeyboardMarkup) (sweet : Sweet)
  : InlineKeyboardMarkup :=
  buttons ++ [ sweet_row sweet ].

Definition _build_sweets_keyboard (category : string) : InlineKeyboardMarkup :=
  match Py.get SWEET_CATALOGUE category with
  | None | Some [] => [ [ back_button ] ]
  | Some sweets =>
      let buttons := fold_left sweets_keyboard_step sweets [] in
      buttons ++ [ [ back_button ] ]
  end.

Definition _build_item_keyboard (sweet : Sweet) : InlineKeyboardMarkup :=
  [ [ {| text := "Добавить в корзину"; callback_data := "add:" +:+ id sweet |} ];
    [ {| text := "🛒 Открыть корзину"; callback_data := "cart:view" |};
      back_button ] ].

Definition _build_cart_keyboard (cart : Py.dict Z) : InlineKeyboardMarkup :=
  let buttons :=
    if Py.truthy cart
    then [ [ {| text := "Очистить"; callback_data := "cart:clear" |};
             {| text := "Оформить заказ"; callback_data := "cart:checkout" |} ] ]
    else [] in
  buttons ++ [ [ {| text := "⬅️ К товарам"; callback_data := "menu" |} ] ].

(** The line [_format_cart] appends for one resolved entry. *)
Definition cart_line (sweet : Sweet) (quantity : Z) : string :=
  let line_total := price_rub sweet * quantity in
  "• " +:+ name sweet +:+ " — " +:+ Py.str_of_int quantity +:+ " шт. × "
  +:+ _format_currency (price_rub sweet) +:+ " = " +:+ _format_currency line_total.

(** One turn of the [for sweet_id, quantity in cart.items()] loop of
    [_format_cart], on the pair of loop variables [(lines, total)]. *)
Definition format_cart_step (acc : list string * Z) (entry : string * Z)
  : list string * Z :=
  let '(lines, total) := acc in
  let '(sweet_id, quantity) := entry in
  match _find_sweet_by_id sweet_id with
  | None => (lines, total)
  | Some sweet =>
      let line_total := price_rub sweet * quantity in
      (lines ++ [ cart_line sweet quantity ], total + line_total)
  end.

Definition cart_header : string := "🛒 Ваша корзина:".

Definition cart_total_line (total : Z) : string :=
  "Итого к оплате: " +:+ _format_currency total.

Definition cart_closing_line : string :=
  "Для завершения заказа нажмите «Оформить заказ» и наш менеджер свяжется"
  +:+ " с вами.".

Definition cart_empty_text : string :=
  "Ваша корзина пока пуста. Загляните в меню и добавьте что-нибудь вкусное!".

(** The list [lines] of [_format_cart] just before it is joined, for a cart
    that passed the emptiness test. *)
Definition format_cart_lines (cart : Py.dict Z) : list string :=
  let '(lines, total) :=
    fold_left format_cart_step (Py.items cart) ([ cart_header ], 0) in
  lines ++ [ ""%string ] ++ [ cart_total_line total ] ++ [ cart_closing_line ].

Definition _format_cart (cart : Py.dict Z) : string :=
  if negb (Py.truthy cart) then cart_empty_text
  else Py.join Py.nl (format_cart_lines cart).

(** ** Session bag and the calls a handler makes *)

(** The objects a session bag may hold under a key; a dict is the
    [Dict[str, int]] that [_get_cart] is annotated to return. *)
Inductive pyobj :=
| PyNone
| PyInt (n : Z)
| PyStr (s : string)
| PyList (xs : list string)
| PyDict (d : Py.dict Z).

(** [isinstance(o, dict)]. *)
Definition isinstance_dict (o : pyobj) : bool :=
  match o with
  | PyDict _ => true
  | _ => false
  end.

Inductive ParseMode := HTML.

(** The awaited calls, with their arguments: [query.answer],
    [query.edit_message_text], [query.edit_message_reply_markup] and
    [message.reply_text]. *)
Inductive call :=
| answer (notice : option string) (show_alert : bool)
| edit_message_text (body : string) (parse_mode : option ParseMode)
    (reply_markup : InlineKeyboardMarkup)
| edit_message_reply_markup (reply_markup : InlineKeyboardMarkup)
| reply_text (body : string) (reply_markup : InlineKeyboardMarkup).

Record world := {
  user_data : gmap string pyobj;
  sent : list call
}.

(** A handler step: runs on a world and returns a value and the next
    world, or [None] when a Python exception escapes. *)
Definition M (A : Type) : Type := world -> option (A * world).

Definition ret {A} (a : A) : M A := fun w => Some (a, w).

Definition bind {A B} (m : M A) (k : A -> M B) : M B :=
  fun w =>
    match m w with
    | Some (a, w') => k a w'
    | None => None
    end.

Definition raise {A} : M A := fun _ => None.

Declare Scope handler_scope.
Delimit Scope handler_scope with handler.
Notation "x <- m ;; k" := (bind m (fun x => k))
  (at level 100, m at next level, right associativity) : handler_scope.
Notation "m ;; k" := (bind m (fun _ => k))
  (at level 100, right associativity) : handler_scope.
Local Open Scope handler_scope.

(** [await] of one call on the query or the message. *)
Definition await (c : call) : M unit :=
  fun w => Some (tt, {| user_data := user_data w; sent := sent w ++ [ c ] |}).

(** [user_data.setdefault(key, default)]. *)
Definition setdefault (key : string) (default : pyobj) : M pyobj :=
  fun w =>
    match user_data w !! key with
    | Some o => Some (o, w)
    | None =>
        Some (default,
              {| user_data := <[ key := default ]> (user_data w); sent := sent w |})
    end.

(** [user_data[key] = o]. *)
Definition store (key : string) (o : pyobj) : M unit :=
  fun w => Some (tt, {| user_data := <[ key := o ]> (user_data w); sent := sent w |}).

(** [user_data[key]]; a missing key is a [KeyError]. *)
Definition load (key : string) : M pyobj :=
  fun w =>
    match user_data w !! key with
    | Some o => Some (o, w)
    | None => None
    end.

(** [xs[i]] inside a handler. *)
Definition item {A} (xs : list A) (i : nat) : M A :=
  match Py.index xs i with
  | Some x => ret x
  | None => raise
  end.

(** A value handed on as the [Dict[str, int]] a function is annotated to
    return; the handlers only ever use it as a dict. *)
Definition as_dict (o : pyobj) : M (Py.dict Z) :=
  match o with
  | PyDict d => ret d
  | _ => raise
  end.

Definition _get_cart : M (Py.dict Z) :=
  cart <- setdefault "cart" (PyDict []) ;;
  cart <- (if negb (isinstance_dict cart)
           then store "cart" (PyDict []) ;; load "cart"
           else ret cart) ;;
  as_dict cart.

(** An in-place update of the dict that the local [cart] names.  That
    object is the one held under ["cart"] in the session bag (it is what
    [_get_cart] returned) and nothing else refers to it, so the update is
    written to that slot; the new contents are returned for the reads of
    [cart] that follow. *)
Definition mutate_cart (contents : Py.dict Z) : M (Py.dict Z) :=
  store "cart" (PyDict contents) ;;
  ret contents.

(** ** Handlers *)

Record CallbackQuery := {
  data : option string
}.

(** The parts of an update the handlers read: the callback query, when the
    update carries one, and whether there is an effective message. *)
Record Update := {
  callback_query : option CallbackQuery;
  effective_message : bool
}.

Definition cart_command (update : Update) : M unit :=
  cart <- _get_cart ;;
  if effective_message update
  then await (reply_text (_format_cart cart) (_build_cart_keyboard cart))
  else ret tt.

(** The two statements of the ["add:"] branch of [handle_callbacks] that
    touch the cart: [cart = _get_cart(context.user_data)] and
    [cart[sweet_id] = cart.get(sweet_id, 0) + 1]. *)
Definition add_to_cart (sweet_id : string) : M unit :=
  cart <- _get_cart ;;
  _ <- mutate_cart (Py.setitem cart sweet_id (Py.get_or cart sweet_id 0 + 1)) ;;
  ret tt.

(** [cart.clear()] on the cart of the session, as the ["cart:clear"] and
    ["cart:checkout"] branches call it. *)
Definition clear_cart (cart : Py.dict Z) : M (Py.dict Z) :=
  mutate_cart (Py.clear cart).

(** The last statement of [handle_callbacks], reached when no branch
    returned. *)
Definition unknown_callback : M unit :=
  await (answer (Some "Неизвестная команда"%string) true).

Definition thanks_text : string :=
  "Спасибо за заказ! 🎉" +:+ Py.nl
  +:+ "Наш менеджер свяжется с вами в ближайшее время для"
  +:+ " уточнения деталей доставки и оплаты.".

(** The body of [handle_callbacks] from the test [data == "menu"] on. *)
Definition route (data : string) : M unit :=
  if String.eqb data "menu" then
    await (edit_message_text "Выбирайте сладости:" None _build_categories_keyboard)
  else if Py.startswith data "cat:" then
    category <- item (Py.split1 ":" data) 1 ;;
    match Py.get SWEET_CATALOGUE category with
    | None | Some [] => await (answer (Some "Категория не найдена"%string) true)
    | Some (_ :: _) =>
        await (edit_message_text ("Категория: " +:+ _category_title category) None
                 (_build_sweets_keyboard category))
    end
  else if Py.startswith data "item:" then
    sweet_id <- item (Py.split1 ":" data) 1 ;;
    match _find_sweet_by_id sweet_id with
    | None => await (answer (Some "Товар не найден"%string) true)
    | Some sweet =>
        let description :=
          "<b>" +:+ name sweet +:+ "</b>" +:+ Py.nl
          +:+ "Цена: " +:+ _format_currency (price_rub sweet) +:+ Py.nl +:+ Py.nl
          +:+ description sweet in
        await (edit_message_text description (Some HTML) (_build_item_keyboard sweet))
    end
  else if Py.startswith data "add:" then
    sweet_id <- item (Py.split1 ":" data) 1 ;;
    match _find_sweet_by_id sweet_id with
    | None => await (answer (Some "Товар не найден"%string) true)
    | Some sweet =>
        add_to_cart sweet_id ;;
        await (answer (Some "Добавлено в корзину"%string) false) ;;
        await (edit_message_reply_markup (_build_item_keyboard sweet))
    end
  else if Py.startswith data "cart:" then
    action <- item (Py.split1 ":" data) 1 ;;
    cart <- _get_cart ;;
    if String.eqb action "view" then
      await (edit_message_text (_format_cart cart) None (_build_cart_keyboard cart))
    else if String.eqb action "clear" then
      cart <- clear_cart cart ;;
      await (edit_message_text "Корзина очищена. Чем еще можем порадовать?" None
               (_build_cart_keyboard cart))
    else if String.eqb action "checkout" then
      if negb (Py.truthy cart) then
        await (answer (Some "Корзина пуста"%string) true)
      else
        await (edit_message_text thanks_text None _build_categories_keyboard) ;;
        _ <- clear_cart cart ;;
        ret tt
    else unknown_callback
  else unknown_callback.

Definition handle_callbacks (update : Update) : M unit :=
  match callback_query update with
  | None => ret tt
  | Some query =>
      await (answer None false) ;;
      let data := match data query with
                  | Some s => s
                  | None => ""%string
                  end in
      route data
  end.

(** ** Running handlers on a session *)

(** An update that carries a button press with the given payload. *)
Definition press (payload : string) : Update :=
  {| callback_query := Some {| data := Some payload |};
     effective_message := true |}.

(** The payload [handle_callbacks] routes for an update, when the update
    carries a callback query. *)
Definition payload_of (update : Update) : option string :=
  match callback_query update with
  | Some query => Some (match data query with
                        | Some s => s
                        | None => ""%string
                        end)
  | None => None
  end.

(** The update is a press whose payload enters the ["add:"] branch. *)
Definition is_add_press (update : Update) : bool :=
  match payload_of update with
  | Some payload => Py.startswith payload "add:"
  | None => false
  end.

(** A session bag with nothing sent yet. *)
Definition session (bag : gmap string pyobj) : world :=
  {| user_data := bag; sent := [] |}.

(** The cart of a session: what [_get_cart] returns on its bag. *)
Definition cart_of (bag : gmap string pyobj) : Py.dict Z :=
  match _get_cart (session bag) with
  | Some (cart, _) => cart
  | None => []
  end.

(** The cart store as the handlers use it: an add is the cart part of the
    ["add:"] branch, a clear is [_get_cart] followed by [cart.clear()]. *)
Inductive cart_op :=
| op_add (sweet_id : string)
| op_clear.

Definition run_op (o : cart_op) : M unit :=
  match o with
  | op_add sweet_id => add_to_cart sweet_id
  | op_clear => cart <- _get_cart ;; _ <- clear_cart cart ;; ret tt
  end.

(** Handler steps one after the other, stopping at the first exception. *)
Fixpoint run_all {A} (step : A -> M unit) (inputs : list A) : M unit :=
  match inputs with
  | [] => ret tt
  | x :: rest => step x ;; run_all step rest
  end.

(** The same step [n] times. *)
Definition times (n : nat) (step : M unit) : M unit :=
  run_all (fun _ : unit => step) (repeat tt n).

(** Every stored quantity is strictly positive. *)
Definition positive_quantities (cart : Py.dict Z) : Prop :=
  Forall (fun entry => 0 < snd entry) cart.

(** The cart entries whose id resolves in the catalogue, each with the
    sweet found, in cart order. *)
Definition resolved_entries (cart : Py.dict Z) : list (Sweet * Z) :=
  omap (fun entry : string * Z =>
          match _find_sweet_by_id (fst entry) with
          | Some sweet => Some (sweet, snd entry)
          | None => None
          end) cart.

(** The line of a resolved entry. *)
Definition entry_line (line : Sweet * Z) : string :=
  cart_line (fst line) (snd line).

(** The sum of [price * quantity] over the resolvable entries, written
    independently of the loop of [_format_cart]. *)
Definition resolvable_sum (cart : Py.dict Z) : Z :=
  foldr Z.add 0 (map (fun line : Sweet * Z => price_rub (fst line) * snd line)
                     (resolved_entries cart)).

(** The value of the loop variable [total] when the loop of [_format_cart]
    ends. *)
Definition cart_total (cart : Py.dict Z) : Z :=
  snd (fold_left format_cart_step (Py.items cart) ([ cart_header ], 0)).

(** The cart changes a handler can make: none, emptying it, or one more
    of some sweet. *)
Definition cart_step (before after : Py.dict Z) : Prop :=
  after = before
  \/ after = []
  \/ exists sweet_id,
       after = Py.setitem before sweet_id (Py.get_or before sweet_id 0 + 1).

(** A call that replaces the screen or posts one, as opposed to the
    transient notice of [query.answer]. *)
Definition renders_screen (c : call) : bool :=
  match c with
  | answer _ _ => false
  | edit_message_text _ _ _ | edit_message_reply_markup _ | reply_text _ _ => true
  end.

(** Decimal digits only: no sign, separator, point or space. *)
Definition is_digit (c : ascii) : bool :=
  (48 <=? nat_of_ascii c)%nat && (nat_of_ascii c <=? 57)%nat.

Fixpoint all_digits (s : string) : bool :=
  match s with
  | EmptyString => true
  | String c rest => is_digit c && all_digits rest
  end.

(** Every sweet of the catalogue, category after category. *)
Definition all_sweets : list Sweet := concat (Py.values SWEET_CATALOGUE).

(** An answer shown as an alert, the way the handlers report a failure. *)
Definition is_alert (c : call) : bool :=
  match c with
  | answer (Some _) true => true
  | _ => false
  end.

(** Every id stored in the cart resolves in the catalogue. *)
Definition resolvable_ids (cart : Py.dict Z) : Prop :=
  Forall (fun entry => is_Some (_find_sweet_by_id (fst entry))) cart.

(** The keyboard a call puts on display, when it carries one. *)
Definition markup_of (c : call) : option InlineKeyboardMarkup :=
  match c with
  | answer _ _ => None
  | edit_message_text _ _ reply_markup
  | edit_message_reply_markup reply_markup
  | reply_text _ reply_markup => Some reply_markup
  end.

(** The keyboards the handlers build: the category keyboard, the sweets
    keyboard of some key, the item keyboard of a sweet of the catalogue,
    and the keyboard of the cart of the session in world [w]. *)
Definition pressable (w : world) (markup : InlineKeyboardMarkup) : Prop :=
  markup = _build_categories_keyboard
  \/ (exists category, markup = _build_sweets_keyboard category)
  \/ (exists sweet, In sweet all_sweets /\ markup = _build_item_keyboard sweet)
  \/ markup = _build_cart_keyboard (cart_of (user_data w)).

(** Pressing a button with this payload in world [w] is handled, puts a
    screen or a keyboard on display and raises no alert. *)
Definition opens_screen (payload : string) (w : world) : Prop :=
  exists w' calls,
    handle_callbacks (press payload) w = Some (tt, w')
    /\ sent w' = sent w ++ calls
    /\ existsb is_alert calls = false
    /\ existsb renders_screen calls = true.

(** ** The cart accessor on unchecked objects

    [pyobj] above gives a dict integer values, as the annotations of the
    module have it.  At run time [isinstance(cart, dict)] is all that
    [_get_cart] tests, so here the accessor and the assignment that follows
    it in the ["add:"] branch are modelled once more on objects whose dicts
    hold any object, with the exception a statement raises. *)

Module Untyped.

#[warnings="-register-all"]
Inductive obj :=
| ONone
| OInt (n : Z)
| OStr (s : string)
| OList (xs : list obj)
| ODict (d : Py.dict obj).

(** [isinstance(o, dict)]. *)
Definition isinstance_dict (o : obj) : bool :=
  match o with
  | ODict _ => true
  | _ => false
  end.

Inductive exn :=
| TypeError
| KeyError
| AttributeError.

(** How a statement ends: with a value, or with an exception; either way
    with the session bag as it has become. *)
Inductive outcome (A : Type) :=
| returned (value : A) (user_data : gmap string obj)
| raised (e : exn) (user_data : gmap string obj).

Arguments returned {A} value user_data.
Arguments raised {A} e user_data.

(** [user_data.setdefault(key, default)]: the object under the key and the
    bag afterwards. *)
Definition setdefault (user_data : gmap string obj) (key : string) (default : obj)
  : obj * gmap string obj :=
  match user_data !! key with
  | Some o => (o, user_data)
  | None => (default, <[ key := default ]> user_data)
  end.

Definition _get_cart (user_data : gmap string obj) : outcome obj :=
  let '(cart, user_data) := setdefault user_data "cart" (ODict []) in
  if negb (isinstance_dict cart) then
    let user_data := <[ "cart" := ODict [] ]> user_data in
    match user_data !! "cart" with
    | Some cart => returned cart user_data
    | None => raised KeyError user_data
    end
  else returned cart user_data.

(** [o + k] for an [int] [k]: only an [int] can be added to. *)
Definition add_int (o : obj) (k : Z) : option obj :=
  match o with
  | OInt n => Some (OInt (n + k))
  | _ => None
  end.

(** [cart = _get_cart(context.user_data)] followed by
    [cart[sweet_id] = cart.get(sweet_id, 0) + 1]. *)
Definition add_to_cart (sweet_id : string) (user_data : gmap string obj)
  : outcome unit :=
  match _get_cart user_data with
  | raised e user_data => raised e user_data
  | returned cart user_data =>
      match cart with
      | ODict d =>
          match add_int (Py.get_or d sweet_id (OInt 0)) 1 with
          | Some quantity =>
              returned tt
                (<[ "cart" := ODict (Py.setitem d sweet_id quantity) ]> user_data)
          | None => raised TypeError user_data
          end
      | _ => raised AttributeError user_data
      end
  end.

(** A dict whose values are all [int]s: a cart as the annotations have it. *)
Definition int_valued (d : Py.dict obj) : Prop :=
  Forall (fun entry => exists n, snd entry = OInt n) d.

(** The cart slot of the bag is missing, holds something that is not a
    dict, or holds a dict of [int]s. *)
Definition slot_well_typed (user_data : gmap string obj) : Prop :=
  match user_data !! "cart" with
  | Some (ODict d) => int_valued d
  | _ => True
  end.

End Untyped.

(** An object of the typed model as an unchecked object. *)
Definition inject (o : pyobj) : Untyped.obj :=
  match o with
  | PyNone => Untyped.ONone
  | PyInt n => Untyped.OInt n
  | PyStr s => Untyped.OStr s
  | PyList xs => Untyped.OList (map Untyped.OStr xs)
  | PyDict d =>
      Untyped.ODict (map (fun entry => (fst entry, Untyped.OInt (snd entry))) d)
  end.

(** * Properties *)

(** ** Python primitives *)

Section PyFacts.

Lemma startswith_inv (s p : string) :
  Py.startswith s p = true -> exists rest, s = p +:+ rest.
Proof.
  revert s. induction p as [|c p IH]; intros s H.
  - exists s. reflexivity.
  - destruct s as [|c' s]; simpl in H; [discriminate|].
    apply andb_prop in H as [Hc Hp]. apply Ascii.eqb_eq in Hc. subst c'.
    destruct (IH s Hp) as [rest ->]. exists rest. reflexivity.
Qed.

Context {V : Type}.
Implicit Types (d : Py.dict V) (k : string) (v : V).

Lemma get_setitem_eq d k v : Py.get (Py.setitem d k v) k = Some v.
Proof.
  induction d as [|[k' v'] d IH]; simpl.
  - rewrite String.eqb_refl. reflexivity.
  - destruct (String.eqb k' k) eqn:E; simpl; rewrite E; auto.
Qed.

Lemma get_setitem_ne d k k' v :
  k <> k' -> Py.get (Py.setitem d k v) k' = Py.get d k'.
Proof.
  intros Hne. induction d as [|[k0 v0] d IH]; simpl.
  - apply String.eqb_neq in Hne. rewrite Hne. reflexivity.
  - destruct (String.eqb k0 k) eqn:E; simpl.
    + apply String.eqb_eq in E. subst k0.
      apply String.eqb_neq in Hne. rewrite Hne. reflexivity.
    + rewrite IH. reflexivity.
Qed.

Lemma keys_setitem_present d k v v0 :
  Py.get d k = Some v0 -> Py.keys (Py.setitem d k v) = Py.keys d.
Proof.
  induction d as [|[k' v'] d IH]; simpl; [discriminate|].
  destruct (String.eqb k' k) eqn:E; simpl; intros H.
  - reflexivity.
  - f_equal. apply IH, H.
Qed.

Lemma setitem_absent d k v :
  Py.get d k = None -> Py.setitem d k v = d ++ [(k, v)].
Proof.
  induction d as [|[k' v'] d IH]; simpl; [reflexivity|].
  destruct (String.eqb k' k) eqn:E; [discriminate|].
  intros H. rewrite IH by exact H. reflexivity.
Qed.

Lemma get_None_keys d k : Py.get d k = None -> ~ In k (Py.keys d).
Proof.
  induction d as [|[k' v'] d IH]; simpl; [tauto|].
  destruct (String.eqb k' k) eqn:E; [discriminate|].
  apply String.eqb_neq in E. intros H [Heq|Hin]; [congruence | exact (IH H Hin)].
Qed.

(** Assignments keep the keys of a dict distinct. *)
Lemma setitem_NoDup d k v :
  List.NoDup (Py.keys d) -> List.NoDup (Py.keys (Py.setitem d k v)).
Proof.
  intros Hd. destruct (Py.get d k) as [v0|] eqn:E.
  - rewrite (keys_setitem_present d k v v0 E). exact Hd.
  - rewrite (setitem_absent d k v E). unfold Py.keys. rewrite map_app. simpl.
    apply NoDup_ListNoDup, NoDup_app. split; [apply NoDup_ListNoDup, Hd|].
    split; [|apply NoDup_singleton].
    intros x Hx Hx'. apply list_elem_of_singleton in Hx'. subst x.
    apply list_elem_of_In in Hx. exact (get_None_keys d k E Hx).
Qed.

Lemma setitem_Forall (P : string * V -> Prop) d k v :
  Forall P d -> (forall k', P (k', v)) -> Forall P (Py.setitem d k v).
Proof.
  intros Hd Hv. induction Hd as [|[k' v'] d Hx Hd IH]; simpl.
  - constructor; [apply Hv | constructor].
  - destruct (String.eqb k' k); constructor; auto.
Qed.

Lemma get_Forall (P : string * V -> Prop) d k v :
  Forall P d -> Py.get d k = Some v -> exists k', P (k', v).
Proof.
  intros Hd. induction Hd as [|[k' v'] d Hx Hd IH]; simpl; [discriminate|].
  destruct (String.eqb k' k).
  - intros [= <-]. exists k'. exact Hx.
  - exact IH.
Qed.

End PyFacts.

(** ** The session bag and [_get_cart] *)

Section Bag.

Implicit Types (bag : gmap string pyobj) (w : world) (cart : Py.dict Z).

(** What [_get_cart] does, case by case on the ["cart"] slot. *)
Lemma _get_cart_run w :
  _get_cart w =
  match user_data w !! "cart" with
  | Some (PyDict d) => Some (d, w)
  | _ => Some ([], {| user_data := <[ "cart" := PyDict [] ]> (user_data w);
                      sent := sent w |})
  end.
Proof.
  unfold _get_cart, bind, setdefault.
  destruct (user_data w !! "cart") as [o|] eqn:E.
  - destruct o; try reflexivity;
      unfold store, load; simpl; rewrite lookup_insert_eq; reflexivity.
  - reflexivity.
Qed.

Lemma cart_of_lookup bag :
  cart_of bag = match bag !! "cart" with
                | Some (PyDict d) => d
                | _ => []
                end.
Proof.
  unfold cart_of. rewrite _get_cart_run. simpl.
  destruct (bag !! "cart") as [[]|]; reflexivity.
Qed.

Lemma cart_of_insert bag cart : cart_of (<[ "cart" := PyDict cart ]> bag) = cart.
Proof. rewrite cart_of_lookup, lookup_insert_eq. reflexivity. Qed.

(** [_get_cart] returns the cart of the session and leaves a bag with the
    same cart. *)
Lemma _get_cart_cart_of w :
  exists bag',
    _get_cart w = Some (cart_of (user_data w),
                        {| user_data := bag'; sent := sent w |})
    /\ bag' !! "cart" = Some (PyDict (cart_of (user_data w)))
    /\ <[ "cart" := PyDict (cart_of (user_data w)) ]> (user_data w) = bag'.
Proof.
  rewrite _get_cart_run, cart_of_lookup. destruct w as [bag calls]. simpl.
  destruct (bag !! "cart") as [o|] eqn:E.
  - destruct o;
      try (eexists; split; [reflexivity|]; split;
           [apply lookup_insert_eq | reflexivity]).
    exists bag. split; [reflexivity|]. split; [exact E|].
    apply insert_id, E.
  - eexists; split; [reflexivity|]. split; [apply lookup_insert_eq | reflexivity].
Qed.

Lemma mutate_cart_run cart w :
  mutate_cart cart w =
  Some (cart, {| user_data := <[ "cart" := PyDict cart ]> (user_data w);
                 sent := sent w |}).
Proof. reflexivity. Qed.

Lemma add_to_cart_run sweet_id w :
  let cart := cart_of (user_data w) in
  add_to_cart sweet_id w =
  Some (tt, {| user_data :=
                 <[ "cart" := PyDict (Py.setitem cart sweet_id
                                        (Py.get_or cart sweet_id 0 + 1)) ]>
                   (user_data w);
               sent := sent w |}).
Proof.
  intros cart. unfold add_to_cart, bind.
  destruct (_get_cart_cart_of w) as (bag' & -> & _ & <-).
  rewrite mutate_cart_run. simpl. rewrite insert_insert_eq. reflexivity.
Qed.

Lemma clear_after_get_run w :
  (cart <- _get_cart ;; clear_cart cart)%handler w =
  Some ([], {| user_data := <[ "cart" := PyDict [] ]> (user_data w);
               sent := sent w |}).
Proof.
  unfold bind, clear_cart.
  destruct (_get_cart_cart_of w) as (bag' & -> & _ & <-).
  rewrite mutate_cart_run. simpl. rewrite insert_insert_eq. reflexivity.
Qed.

End Bag.

(** ** Running the router *)

Section Router.

Implicit Types (bag : gmap string pyobj) (w : world) (cart : Py.dict Z).

Lemma bind_ret {A B} (a : A) (k : A -> M B) w : bind (ret a) k w = k a w.
Proof. reflexivity. Qed.

Lemma bind_await {B} (c : call) (k : unit -> M B) w :
  bind (await c) k w =
  k tt {| user_data := user_data w; sent := sent w ++ [ c ] |}.
Proof. reflexivity. Qed.

Lemma bind_bind {A B C} (m : M A) (k : A -> M B) (h : B -> M C) w :
  bind (bind m k) h w = bind m (fun a => bind (k a) h) w.
Proof. unfold bind. destruct (m w) as [[a w']|]; reflexivity. Qed.

(** The payload after the prefix is what [data.split(":", 1)[1]] yields,
    also when it contains further colons. *)
Lemma item_split1_cat rest : item (Py.split1 ":" ("cat:" +:+ rest)) 1 = ret rest.
Proof. reflexivity. Qed.

Lemma item_split1_item rest : item (Py.split1 ":" ("item:" +:+ rest)) 1 = ret rest.
Proof. reflexivity. Qed.

Lemma item_split1_add rest : item (Py.split1 ":" ("add:" +:+ rest)) 1 = ret rest.
Proof. reflexivity. Qed.

Lemma item_split1_cart rest : item (Py.split1 ":" ("cart:" +:+ rest)) 1 = ret rest.
Proof. reflexivity. Qed.

Lemma route_cat key :
  route ("cat:" +:+ key) =
  match Py.get SWEET_CATALOGUE key with
  | None | Some [] => await (answer (Some "Категория не найдена"%string) true)
  | Some (_ :: _) =>
      await (edit_message_text ("Категория: " +:+ _category_title key) None
               (_build_sweets_keyboard key))
  end.
Proof. reflexivity. Qed.

Lemma route_add sweet_id :
  route ("add:" +:+ sweet_id) =
  match _find_sweet_by_id sweet_id with
  | None => await (answer (Some "Товар не найден"%string) true)
  | Some sweet =>
      (add_to_cart sweet_id ;;
       await (answer (Some "Добавлено в корзину"%string) false) ;;
       await (edit_message_reply_markup (_build_item_keyboard sweet)))%handler
  end.
Proof. reflexivity. Qed.

Lemma route_checkout :
  route "cart:checkout" =
  (cart <- _get_cart ;;
   if negb (Py.truthy cart) then
     await (answer (Some "Корзина пуста"%string) true)
   else
     await (edit_message_text thanks_text None _build_categories_keyboard) ;;
     _ <- clear_cart cart ;;
     ret tt)%handler.
Proof. reflexivity. Qed.

Lemma handle_press payload w :
  handle_callbacks (press payload) w =
  route payload {| user_data := user_data w;
                   sent := sent w ++ [ answer None false ] |}.
Proof. reflexivity. Qed.

Lemma sweets_keyboard_loop sweets buttons :
  fold_left sweets_keyboard_step sweets buttons = buttons ++ map sweet_row sweets.
Proof.
  revert buttons. induction sweets as [|sweet sweets IH]; intros buttons; simpl.
  - rewrite app_nil_r. reflexivity.
  - rewrite IH. unfold sweets_keyboard_step. rewrite <- app_assoc. reflexivity.
Qed.

End Router.

(** ** The cart text *)

Section CartText.

Implicit Types (cart : Py.dict Z) (lines : list string) (total : Z).

Lemma resolved_entries_app cart1 cart2 :
  resolved_entries (cart1 ++ cart2) = resolved_entries cart1 ++ resolved_entries cart2.
Proof.
  unfold resolved_entries. apply omap_app.
Qed.

Lemma resolvable_sum_app cart1 cart2 :
  resolvable_sum (cart1 ++ cart2) = resolvable_sum cart1 + resolvable_sum cart2.
Proof.
  unfold resolvable_sum. rewrite resolved_entries_app, map_app.
  induction (map _ (resolved_entries cart1)) as [|z zs IH]; simpl; lia.
Qed.

(** The loop of [_format_cart], from any values of its two variables. *)
Lemma format_cart_loop cart lines total :
  fold_left format_cart_step cart (lines, total) =
  (lines ++ map entry_line (resolved_entries cart), total + resolvable_sum cart).
Proof.
  revert lines total.
  induction cart as [|[sweet_id quantity] cart IH]; intros lines total.
  - simpl. rewrite app_nil_r, Z.add_0_r. reflexivity.
  - change (fold_left format_cart_step ((sweet_id, quantity) :: cart) (lines, total))
      with (fold_left format_cart_step cart
              (format_cart_step (lines, total) (sweet_id, quantity))).
    change ((sweet_id, quantity) :: cart) with ([(sweet_id, quantity)] ++ cart).
    rewrite resolved_entries_app, resolvable_sum_app.
    unfold format_cart_step, resolvable_sum, resolved_entries at 1 3. simpl.
    destruct (_find_sweet_by_id sweet_id) as [sweet|]; rewrite IH; simpl.
    + rewrite <- app_assoc. simpl. f_equal. unfold resolvable_sum. lia.
    + reflexivity.
Qed.

Lemma cart_total_sum cart : cart_total cart = resolvable_sum cart.
Proof. unfold cart_total, Py.items. rewrite format_cart_loop. reflexivity. Qed.

Lemma format_cart_lines_eq cart :
  format_cart_lines cart =
  cart_header :: map entry_line (resolved_entries cart)
  ++ [ ""%string; cart_total_line (resolvable_sum cart); cart_closing_line ].
Proof.
  unfold format_cart_lines, Py.items. rewrite format_cart_loop. reflexivity.
Qed.

Lemma _format_cart_nonempty cart :
  cart <> [] -> _format_cart cart = Py.join Py.nl (format_cart_lines cart).
Proof. destruct cart; [congruence | reflexivity]. Qed.

(** An entry whose id does not resolve leaves no trace in the lines. *)
Lemma stale_entry_skipped cart1 cart2 sweet_id quantity :
  _find_sweet_by_id sweet_id = None ->
  format_cart_lines (cart1 ++ (sweet_id, quantity) :: cart2) =
  format_cart_lines (cart1 ++ cart2).
Proof.
  intros Hstale. rewrite !format_cart_lines_eq.
  change ((sweet_id, quantity) :: cart2) with ([(sweet_id, quantity)] ++ cart2).
  rewrite !resolved_entries_app, !resolvable_sum_app.
  unfold resolvable_sum at 2, resolved_entries at 2 5. simpl.
  rewrite Hstale. simpl. rewrite Z.add_0_l. reflexivity.
Qed.

End CartText.

(** ** What a handler can do to the cart *)

Section CartSteps.

Implicit Types (bag : gmap string pyobj) (w : world) (cart : Py.dict Z).

Lemma cart_of_after_get w bag' :
  bag' !! "cart" = Some (PyDict (cart_of (user_data w))) ->
  cart_of bag' = cart_of (user_data w).
Proof. intros H. rewrite (cart_of_lookup bag'), H. reflexivity. Qed.

Lemma add_to_cart_cart_step sweet_id w :
  exists w',
    add_to_cart sweet_id w = Some (tt, w')
    /\ sent w' = sent w
    /\ cart_of (user_data w') =
       Py.setitem (cart_of (user_data w)) sweet_id
         (Py.get_or (cart_of (user_data w)) sweet_id 0 + 1).
Proof.
  eexists. split; [apply add_to_cart_run|]. simpl.
  split; [reflexivity | apply cart_of_insert].
Qed.

Lemma run_op_cart_step (o : cart_op) w :
  exists w',
    run_op o w = Some (tt, w')
    /\ cart_step (cart_of (user_data w)) (cart_of (user_data w')).
Proof.
  destruct o as [sweet_id|]; simpl.
  - destruct (add_to_cart_cart_step sweet_id w) as (w' & Hrun & _ & Hcart).
    exists w'. split; [exact Hrun|]. right; right. exists sweet_id. exact Hcart.
  - rewrite <- bind_bind. unfold bind at 1. rewrite clear_after_get_run.
    eexists. split; [reflexivity|]. simpl. right; left. apply cart_of_insert.
Qed.

(** The router never raises, and only the ["add:"] branch can put
    something into the cart. *)
Lemma route_cart_cases payload w :
  exists w',
    route payload w = Some (tt, w')
    /\ (cart_of (user_data w') = cart_of (user_data w)
        \/ cart_of (user_data w') = []
        \/ (Py.startswith payload "add:" = true
            /\ exists sweet_id,
                 cart_of (user_data w') =
                 Py.setitem (cart_of (user_data w)) sweet_id
                   (Py.get_or (cart_of (user_data w)) sweet_id 0 + 1))).
Proof.
  unfold route.
  destruct (String.eqb payload "menu").
  { eexists. split; [reflexivity | left; reflexivity]. }
  destruct (Py.startswith payload "cat:") eqn:Ecat.
  { apply startswith_inv in Ecat as [rest ->].
    rewrite item_split1_cat, bind_ret.
    destruct (Py.get SWEET_CATALOGUE rest) as [[|? ?]|];
      eexists; (split; [reflexivity | left; reflexivity]). }
  destruct (Py.startswith payload "item:") eqn:Eitem.
  { apply startswith_inv in Eitem as [rest ->].
    rewrite item_split1_item, bind_ret.
    destruct (_find_sweet_by_id rest);
      eexists; (split; [reflexivity | left; reflexivity]). }
  destruct (Py.startswith payload "add:") eqn:Eadd.
  { apply startswith_inv in Eadd as [rest ->].
    rewrite item_split1_add, bind_ret.
    destruct (_find_sweet_by_id rest) as [sweet|].
    - unfold bind at 1.
      destruct (add_to_cart_cart_step rest w) as (w' & -> & _ & Hcart).
      eexists. split; [reflexivity|]. right; right.
      split; [reflexivity|]. exists rest. exact Hcart.
    - eexists. split; [reflexivity | left; reflexivity]. }
  destruct (Py.startswith payload "cart:") eqn:Ecart.
  { apply startswith_inv in Ecart as [action ->].
    rewrite item_split1_cart, bind_ret.
    unfold bind at 1.
    destruct (_get_cart_cart_of w) as (bag' & -> & Hslot & _).
    pose proof (cart_of_after_get w bag' Hslot) as Hsame.
    destruct (String.eqb action "view").
    { eexists. split; [reflexivity | left; exact Hsame]. }
    destruct (String.eqb action "clear").
    { eexists. split; [reflexivity|]. right; left. apply cart_of_insert. }
    destruct (String.eqb action "checkout").
    { destruct (Py.truthy (cart_of (user_data w))); simpl.
      - eexists. split; [reflexivity|]. right; left. apply cart_of_insert.
      - eexists. split; [reflexivity | left; exact Hsame]. }
    eexists. split; [reflexivity | left; exact Hsame]. }
  eexists. split; [reflexivity | left; reflexivity].
Qed.

(** Every update is handled without an exception; the cart is then as
    before or empty, unless the update was an add press. *)
Lemma handle_callbacks_cart_cases (update : Update) w :
  exists w',
    handle_callbacks update w = Some (tt, w')
    /\ (cart_of (user_data w') = cart_of (user_data w)
        \/ cart_of (user_data w') = []
        \/ (is_add_press update = true
            /\ exists sweet_id,
                 cart_of (user_data w') =
                 Py.setitem (cart_of (user_data w)) sweet_id
                   (Py.get_or (cart_of (user_data w)) sweet_id 0 + 1))).
Proof.
  unfold handle_callbacks, is_add_press, payload_of.
  destruct (callback_query update) as [query|].
  - rewrite bind_await.
    match goal with
    | |- context [route ?payload ?w1] =>
        destruct (route_cart_cases payload w1) as (w' & Hrun & Hcart)
    end.
    exists w'. split; assumption.
  - eexists. split; [reflexivity | left; reflexivity].
Qed.

Lemma handle_callbacks_cart_step (update : Update) w :
  exists w',
    handle_callbacks update w = Some (tt, w')
    /\ cart_step (cart_of (user_data w)) (cart_of (user_data w')).
Proof.
  destruct (handle_callbacks_cart_cases update w)
    as (w' & Hrun & [Hsame|[Hempty|[_ Hadd]]]);
    exists w'; (split; [exact Hrun|]); unfold cart_step; auto.
Qed.

(** Without an add press an empty cart stays empty. *)
Lemma run_all_without_add (updates : list Update) :
  Forall (fun update => is_add_press update = false) updates ->
  forall w,
    cart_of (user_data w) = [] ->
    exists w',
      run_all handle_callbacks updates w = Some (tt, w')
      /\ cart_of (user_data w') = [].
Proof.
  induction 1 as [|update updates Hupdate _ IH]; intros w Hempty; simpl.
  - exists w. split; [reflexivity | exact Hempty].
  - destruct (handle_callbacks_cart_cases update w)
      as (w1 & Hrun & [Hsame|[Hcleared|[Hadd _]]]);
      unfold bind; rewrite Hrun; apply IH; congruence.
Qed.

Lemma positive_get_or cart sweet_id :
  positive_quantities cart -> 0 <= Py.get_or cart sweet_id 0.
Proof.
  intros Hpos. unfold Py.get_or.
  destruct (Py.get cart sweet_id) as [v|] eqn:E; [|lia].
  destruct (get_Forall _ _ _ _ Hpos E) as [k' Hk']. simpl in Hk'. lia.
Qed.

Lemma cart_step_positive before after :
  cart_step before after ->
  positive_quantities before -> positive_quantities after.
Proof.
  intros [->|[->|[sweet_id ->]]] Hpos.
  - exact Hpos.
  - constructor.
  - apply setitem_Forall; [exact Hpos|].
    intros k'. simpl. pose proof (positive_get_or before sweet_id Hpos). lia.
Qed.

(** A run of steps that each make a [cart_step] ends, and keeps the
    quantities positive. *)
Lemma run_all_positive {A} (step : A -> M unit) :
  (forall x w, exists w',
      step x w = Some (tt, w')
      /\ cart_step (cart_of (user_data w)) (cart_of (user_data w'))) ->
  forall inputs w,
    positive_quantities (cart_of (user_data w)) ->
    exists w',
      run_all step inputs w = Some (tt, w')
      /\ positive_quantities (cart_of (user_data w')).
Proof.
  intros Hstep inputs.
  induction inputs as [|x inputs IH]; intros w Hpos; simpl.
  - exists w. split; [reflexivity | exact Hpos].
  - destruct (Hstep x w) as (w1 & Hrun & Hcart).
    unfold bind. rewrite Hrun.
    apply IH. eapply cart_step_positive; eauto.
Qed.

End CartSteps.

(** ** Repeated adds *)

Section RepeatedAdd.

Implicit Types (w : world) (sweet_id : string).

Lemma times_succ (n : nat) (step : M unit) w :
  times (S n) step w = (step ;; times n step)%handler w.
Proof. reflexivity. Qed.

Lemma add_to_cart_lookup sweet_id w :
  exists w',
    add_to_cart sweet_id w = Some (tt, w')
    /\ sent w' = sent w
    /\ Py.get (cart_of (user_data w')) sweet_id =
       Some (Py.get_or (cart_of (user_data w)) sweet_id 0 + 1)
    /\ forall other,
         other <> sweet_id ->
         Py.get (cart_of (user_data w')) other = Py.get (cart_of (user_data w)) other.
Proof.
  destruct (add_to_cart_cart_step sweet_id w) as (w' & Hrun & Hsent & Hcart).
  exists w'. rewrite Hcart. repeat split; auto.
  - apply get_setitem_eq.
  - intros other Hne. apply get_setitem_ne. congruence.
Qed.

Lemma times_add_run sweet_id (n : nat) :
  forall w,
  exists w',
    times n (add_to_cart sweet_id) w = Some (tt, w')
    /\ sent w' = sent w
    /\ Py.get_or (cart_of (user_data w')) sweet_id 0 =
       Py.get_or (cart_of (user_data w)) sweet_id 0 + Z.of_nat n
    /\ (n <> 0%nat ->
        Py.get (cart_of (user_data w')) sweet_id =
        Some (Py.get_or (cart_of (user_data w)) sweet_id 0 + Z.of_nat n))
    /\ forall other,
         other <> sweet_id ->
         Py.get (cart_of (user_data w')) other = Py.get (cart_of (user_data w)) other.
Proof.
  induction n as [|n IH]; intros w.
  - exists w. repeat split; auto.
    + simpl. lia.
    + congruence.
  - rewrite times_succ. unfold bind.
    destruct (add_to_cart_lookup sweet_id w) as (w1 & -> & Hsent1 & Hx1 & Hother1).
    destruct (IH w1) as (w' & Hrun & Hsent & Hsum & Hx & Hother).
    assert (Hor1 : Py.get_or (cart_of (user_data w1)) sweet_id 0 =
                   Py.get_or (cart_of (user_data w)) sweet_id 0 + 1).
    { unfold Py.get_or at 1. rewrite Hx1. reflexivity. }
    exists w'. split; [exact Hrun|]. split; [congruence|].
    split; [rewrite Hsum, Hor1; lia|]. split.
    + intros _. destruct n as [|n].
      * simpl in Hrun. injection Hrun as <-. exact Hx1.
      * rewrite Hx by discriminate. rewrite Hor1. f_equal. lia.
    + intros other Hne. rewrite Hother, Hother1; auto.
Qed.

End RepeatedAdd.

(** ** Printing amounts *)

Section Amounts.

Lemma all_digits_uint (d : Decimal.uint) :
  all_digits (NilEmpty.string_of_uint d) = true.
Proof. induction d; simpl; auto. Qed.

Lemma all_digits_of_N (n : N) : all_digits (Py.str_of_int (Z.of_N n)) = true.
Proof.
  destruct n as [|p]; [reflexivity|].
  unfold Py.str_of_int. simpl.
  pose proof (Unsigned.to_uint_nonnil p) as Hnil.
  replace (NilZero.string_of_uint (Pos.to_uint p))
    with (NilEmpty.string_of_uint (Pos.to_uint p))
    by (destruct (Pos.to_uint p); [congruence | reflexivity ..]).
  apply all_digits_uint.
Qed.

(** Reading the printed amount back gives the amount. *)
Lemma str_of_int_exact (n : Z) :
  option_map Z.of_int (NilZero.int_of_string (Py.str_of_int n)) = Some n.
Proof.
  unfold Py.str_of_int. rewrite NilZero.isi.
  - simpl. f_equal. apply DecimalZ.of_to.
  - destruct n as [|p|p]; simpl; try discriminate.
    intros [= H]. exact (Unsigned.to_uint_nonnil p H).
  - destruct n as [|p|p]; simpl; try discriminate.
    intros [= H]. exact (Unsigned.to_uint_nonnil p H).
Qed.

End Amounts.

(** * The claims *)

(** C1.  For a cart that is not empty, the text of the cart screen is the
    header, one line per entry whose id resolves in the catalogue, an empty
    line, the footer and the closing line.  The footer is the words
    "Итого к оплате: ", the decimal digits of the exact integer sum of
    price times quantity over the resolvable entries, a space and the
    rouble sign; reading those digits back gives that sum, which is also
    the value the loop leaves in [total].  Entries whose id does not
    resolve are in neither the lines nor the sum, and the rendering is a
    total function. *)
Theorem cart_footer_is_exact_sum (cart : Py.dict Z) :
  cart <> [] ->
  _format_cart cart =
  Py.join Py.nl
    ("🛒 Ваша корзина:"%string
     :: map entry_line (resolved_entries cart)
     ++ [ ""%string;
          ("Итого к оплате: " +:+ Py.str_of_int (resolvable_sum cart) +:+ " ₽")%string;
          ("Для завершения заказа нажмите «Оформить заказ» и наш менеджер свяжется"
           +:+ " с вами.")%string ])
  /\ option_map Z.of_int (NilZero.int_of_string (Py.str_of_int (resolvable_sum cart))) =
     Some (resolvable_sum cart)
  /\ cart_total cart = resolvable_sum cart.
Proof.
  intros Hne. split; [|split].
  - rewrite _format_cart_nonempty by exact Hne.
    rewrite format_cart_lines_eq. reflexivity.
  - apply str_of_int_exact.
  - apply cart_total_sum.
Qed.

Lemma cart_footer_is_exact_sum_witness :
  [ ("dark_truffle"%string, 2); ("discontinued"%string, 7);
    ("salted_caramel"%string, 1) ] <> []
  /\ _format_cart [ ("dark_truffle"%string, 2); ("discontinued"%string, 7);
                    ("salted_caramel"%string, 1) ] =
     Py.join Py.nl
       [ "🛒 Ваша корзина:"%string;
         "• Трюфель 72% — 2 шт. × 280 ₽ = 560 ₽"%string;
         "• Соленая карамель — 1 шт. × 150 ₽ = 150 ₽"%string;
         ""%string;
         "Итого к оплате: 710 ₽"%string;
         "Для завершения заказа нажмите «Оформить заказ» и наш менеджер свяжется с вами."%string ]
  /\ cart_total [ ("dark_truffle"%string, 2); ("discontinued"%string, 7);
                  ("salted_caramel"%string, 1) ] = 710.
Proof.
  assert (Hne : [ ("dark_truffle"%string, 2); ("discontinued"%string, 7);
                  ("salted_caramel"%string, 1) ] <> []) by discriminate.
  split; [exact Hne|].
  destruct (cart_footer_is_exact_sum
              [ ("dark_truffle"%string, 2); ("discontinued"%string, 7);
                ("salted_caramel"%string, 1) ] Hne) as (Htext & _ & Htotal).
  split; [exact Htext | exact Htotal].
Defined.

(** C5, as the code has it.  The cart text does not normalise quantities:
    an entry with a resolvable id and a quantity that is zero or negative
    gets its line like any other, and its line total, zero or negative, is
    added into the footer amount. *)
Theorem nonpositive_entry_is_rendered
  (before after : Py.dict Z) (sweet_id : string) (quantity : Z) (sweet : Sweet) :
  quantity <= 0 ->
  _find_sweet_by_id sweet_id = Some sweet ->
  _format_cart (before ++ (sweet_id, quantity) :: after) =
  Py.join Py.nl
    (cart_header :: map entry_line (resolved_entries before)
     ++ cart_line sweet quantity :: map entry_line (resolved_entries after)
     ++ [ ""%string;
          cart_total_line (resolvable_sum before + price_rub sweet * quantity
                           + resolvable_sum after);
          cart_closing_line ]).
Proof.
  intros _ Hfound.
  rewrite _format_cart_nonempty by (destruct before; discriminate).
  rewrite format_cart_lines_eq.
  change ((sweet_id, quantity) :: after) with ([ (sweet_id, quantity) ] ++ after).
  rewrite !resolved_entries_app, !resolvable_sum_app.
  unfold resolvable_sum at 2, resolved_entries at 2 5. simpl. rewrite Hfound. simpl.
  rewrite !map_app, Z.add_0_r, Z.add_assoc, <- app_assoc. reflexivity.
Qed.

Lemma nonpositive_entry_is_rendered_witness :
  0 <= 0
  /\ _find_sweet_by_id "red_velvet_cookie" =
     Some {| id := "red_velvet_cookie";
             name := "Печенье «Красный бархат»";
             price_rub := 130;
             description := "Мягкое печенье с нежным кремовым послевкусием." |}
  /\ _format_cart [ ("milk_chocolate"%string, 1); ("red_velvet_cookie"%string, 0) ] =
     Py.join Py.nl
       [ cart_header;
         "• Молочный шоколад — 1 шт. × 220 ₽ = 220 ₽"%string;
         "• Печенье «Красный бархат» — 0 шт. × 130 ₽ = 0 ₽"%string;
         ""%string;
         "Итого к оплате: 220 ₽"%string;
         cart_closing_line ].
Proof.
  split; [lia|]. split; [reflexivity|].
  exact (nonpositive_entry_is_rendered
           [ ("milk_chocolate"%string, 1) ] [] "red_velvet_cookie" 0 _
           (Z.le_refl 0) eq_refl).
Defined.

(** C5, as stated, fails: a cart whose only entry has quantity -1 is
    rendered with a line for that entry and a footer of -220. *)
Lemma negative_quantity_reaches_the_text :
  _format_cart [ ("milk_chocolate"%string, -1) ] =
  Py.join Py.nl
    [ cart_header;
      "• Молочный шоколад — -1 шт. × 220 ₽ = -220 ₽"%string;
      ""%string;
      "Итого к оплате: -220 ₽"%string;
      cart_closing_line ].
Proof. reflexivity. Qed.

(** C2.  One add on any session stores, for the sweet added, its former
    quantity (zero when it had no entry) plus one, so a missing entry is
    created at 1; every other entry reads as before.  Starting from a cart
    with no entry for the sweet, [n] adds leave its quantity at [n]: read
    with a default of zero for every [n], and by key as soon as [n] is not
    zero. *)
Theorem repeated_add_counts (bag : gmap string pyobj) (sweet_id : string) (n : nat) :
  (exists bag1,
      add_to_cart sweet_id (session bag) = Some (tt, session bag1)
      /\ Py.get (cart_of bag1) sweet_id =
         Some (Py.get_or (cart_of bag) sweet_id 0 + 1)
      /\ (Py.get (cart_of bag) sweet_id = None ->
          Py.get (cart_of bag1) sweet_id = Some 1)
      /\ forall other,
           other <> sweet_id -> Py.get (cart_of bag1) other = Py.get (cart_of bag) other)
  /\ (Py.get (cart_of bag) sweet_id = None ->
      exists bagn,
        times n (add_to_cart sweet_id) (session bag) = Some (tt, session bagn)
        /\ Py.get_or (cart_of bagn) sweet_id 0 = Z.of_nat n
        /\ (n <> 0%nat -> Py.get (cart_of bagn) sweet_id = Some (Z.of_nat n))
        /\ forall other,
             other <> sweet_id ->
             Py.get (cart_of bagn) other = Py.get (cart_of bag) other).
Proof.
  assert (Hzero : Py.get (cart_of bag) sweet_id = None ->
                  Py.get_or (cart_of bag) sweet_id 0 = 0)
    by (intros Habsent; unfold Py.get_or; rewrite Habsent; reflexivity).
  split.
  - destruct (add_to_cart_lookup sweet_id (session bag))
      as ([bag1 calls] & Hrun & Hsent & Hx & Hother).
    simpl in *. subst calls. exists bag1.
    split; [exact Hrun|]. split; [exact Hx|]. split; [|exact Hother].
    intros Habsent. rewrite Hx, (Hzero Habsent). reflexivity.
  - intros Habsent.
    destruct (times_add_run sweet_id n (session bag))
      as ([bagn calls] & Hrun & Hsent & Hsum & Hx & Hother).
    simpl in *. subst calls. rewrite (Hzero Habsent) in Hsum, Hx.
    exists bagn. auto.
Qed.

Lemma repeated_add_counts_witness :
  Py.get (cart_of ∅) "hazelnut_caramel" = None
  /\ exists bagn,
       times 3 (add_to_cart "hazelnut_caramel") (session ∅) = Some (tt, session bagn)
       /\ Py.get_or (cart_of bagn) "hazelnut_caramel" 0 = 3
       /\ Py.get (cart_of bagn) "hazelnut_caramel" = Some 3.
Proof.
  assert (Habsent : Py.get (cart_of ∅) "hazelnut_caramel" = None) by reflexivity.
  split; [exact Habsent|].
  destruct (proj2 (repeated_add_counts ∅ "hazelnut_caramel" 3) Habsent)
    as (bagn & Hrun & Hsum & Hx & _).
  exists bagn. split; [exact Hrun|]. split; [exact Hsum|].
  apply Hx. discriminate.
Defined.

(** X10.  The ["add:"] button of an id that resolves stores one more
    under exactly that id, the whole text after the first colon, then
    acknowledges and redraws the item keyboard of the sweet found. *)
Lemma press_add_runs_add (bag : gmap string pyobj) (sweet_id : string) (sweet : Sweet) :
  _find_sweet_by_id sweet_id = Some sweet ->
  handle_callbacks (press ("add:" +:+ sweet_id)) (session bag) =
  Some (tt, {| user_data :=
                 <[ "cart" := PyDict (Py.setitem (cart_of bag) sweet_id
                                        (Py.get_or (cart_of bag) sweet_id 0 + 1)) ]> bag;
               sent := [ answer None false;
                         answer (Some "Добавлено в корзину"%string) false;
                         edit_message_reply_markup (_build_item_keyboard sweet) ] |}).
Proof.
  intros Hfound. rewrite handle_press, route_add, Hfound.
  unfold bind at 1. rewrite add_to_cart_run. reflexivity.
Qed.

(** X8.  On a session whose cart slot is missing, holds something that is
    not a dict, or holds a dict of integer quantities (the bags of this
    model), the ["cart:view"] button shows the text and the keyboard of the
    cart of the session and leaves that cart as it is. *)
Lemma press_view_shows_cart (w : world) :
  exists bag',
    handle_callbacks (press "cart:view") w =
    Some (tt, {| user_data := bag';
                 sent := sent w
                         ++ [ answer None false ]
                         ++ [ edit_message_text (_format_cart (cart_of (user_data w)))
                                None (_build_cart_keyboard (cart_of (user_data w))) ] |})
    /\ cart_of bag' = cart_of (user_data w).
Proof.
  rewrite handle_press.
  change (route "cart:view") with
    (cart <- _get_cart ;;
     await (edit_message_text (_format_cart cart) None (_build_cart_keyboard cart)))%handler.
  unfold bind.
  match goal with
  | |- context [_get_cart ?w1] =>
      destruct (_get_cart_cart_of w1) as (bag' & -> & Hslot & _);
      pose proof (cart_of_after_get w1 bag' Hslot) as Hsame
  end.
  simpl in *. exists bag'. split; [|exact Hsame].
  unfold await. simpl. rewrite <- app_assoc. reflexivity.
Qed.

(** X9.  The [/cart] command, on an update with a message, replies with
    the same text and keyboard of the cart of the session, and leaves that
    cart as it is. *)
Lemma cart_command_shows_cart (update : Update) (w : world) :
  effective_message update = true ->
  exists bag',
    cart_command update w =
    Some (tt, {| user_data := bag';
                 sent := sent w
                         ++ [ reply_text (_format_cart (cart_of (user_data w)))
                                (_build_cart_keyboard (cart_of (user_data w))) ] |})
    /\ cart_of bag' = cart_of (user_data w).
Proof.
  intros Hmessage. unfold cart_command, bind.
  destruct (_get_cart_cart_of w) as (bag' & -> & Hslot & _).
  rewrite Hmessage. exists bag'. split; [reflexivity|].
  exact (cart_of_after_get w bag' Hslot).
Qed.

(** C3.  Checkout on a session whose cart is not empty sends the
    confirmation screen (the thank-you text over the category keyboard)
    and leaves the cart empty.  Checkout on a session whose cart is empty
    sends only the notice that the cart is empty: no screen is sent, the
    cart is as empty as before, and every other key of the session bag is
    untouched. *)
Theorem checkout_confirms_or_notifies (bag : gmap string pyobj) :
  (cart_of bag <> [] ->
   exists bag',
     handle_callbacks (press "cart:checkout") (session bag) =
     Some (tt, {| user_data := bag';
                  sent := [ answer None false;
                            edit_message_text thanks_text None
                              _build_categories_keyboard ] |})
     /\ cart_of bag' = []
     /\ forall key, key <> "cart"%string -> bag' !! key = bag !! key)
  /\ (cart_of bag = [] ->
      exists bag',
        handle_callbacks (press "cart:checkout") (session bag) =
        Some (tt, {| user_data := bag';
                     sent := [ answer None false;
                               answer (Some "Корзина пуста"%string) true ] |})
        /\ cart_of bag' = cart_of bag
        /\ (forall key, key <> "cart"%string -> bag' !! key = bag !! key)
        /\ (bag !! "cart" = Some (PyDict []) -> bag' = bag)).
Proof.
  split; intros Hcart.
  - exists (<[ "cart" := PyDict [] ]> bag).
    split; [|split].
    + rewrite handle_press, route_checkout. unfold bind at 1.
      rewrite _get_cart_run. simpl.
      rewrite cart_of_lookup in Hcart.
      destruct (bag !! "cart") as [[| | | |[|entry d]]|]; try congruence.
      reflexivity.
    + apply cart_of_insert.
    + intros key Hkey. apply lookup_insert_ne. congruence.
  - rewrite handle_press, route_checkout. unfold bind at 1.
    rewrite _get_cart_run. simpl.
    rewrite Hcart. rewrite cart_of_lookup in Hcart.
    destruct (bag !! "cart") as [o|] eqn:Eslot.
    + destruct o as [| | | |d];
        try (eexists; split; [reflexivity|]; split; [apply cart_of_insert|];
             split; [intros key Hkey; apply lookup_insert_ne; congruence
                    | intros [=]]).
      subst d. exists bag. split; [reflexivity|].
      split; [rewrite cart_of_lookup, Eslot; reflexivity|]. auto.
    + eexists. split; [reflexivity|]. split; [apply cart_of_insert|].
      split; [intros key Hkey; apply lookup_insert_ne; congruence | intros [=]].
Qed.

Lemma checkout_confirms_or_notifies_witness :
  (cart_of {[ "cart"%string := PyDict [ ("dark_truffle"%string, 2) ] ]} <> []
   /\ exists bag',
        handle_callbacks (press "cart:checkout")
          (session {[ "cart"%string := PyDict [ ("dark_truffle"%string, 2) ] ]}) =
        Some (tt, {| user_data := bag';
                     sent := [ answer None false;
                               edit_message_text thanks_text None
                                 _build_categories_keyboard ] |})
        /\ cart_of bag' = [])
  /\ (cart_of ∅ = []
      /\ exists bag',
           handle_callbacks (press "cart:checkout") (session ∅) =
           Some (tt, {| user_data := bag';
                        sent := [ answer None false;
                                  answer (Some "Корзина пуста"%string) true ] |})
           /\ cart_of bag' = cart_of ∅).
Proof.
  split.
  - assert (Hne : cart_of {[ "cart"%string := PyDict [ ("dark_truffle"%string, 2) ] ]}
                  <> []) by (vm_compute; discriminate).
    split; [exact Hne|].
    destruct (proj1 (checkout_confirms_or_notifies _) Hne) as (bag' & Hrun & Hempty & _).
    exists bag'. split; [exact Hrun | exact Hempty].
  - assert (Hempty : cart_of ∅ = []) by reflexivity.
    split; [exact Hempty|].
    destruct (proj2 (checkout_confirms_or_notifies ∅) Hempty)
      as (bag' & Hrun & Hsame & _).
    exists bag'. split; [exact Hrun | exact Hsame].
Defined.

(** C4, as the code has it.  Pressing a category button never touches the
    session bag.  When the key names a category of the catalogue that has
    sweets, the screen is replaced by the item list: the category title
    over one row per sweet, in catalogue order, and a last row with the
    back button.  When the key is unknown, or names a category without
    sweets, the only answer is the alert that the category was not found:
    no screen is sent.  The keyboard builder on its own does return the
    single back button for such a key, but the router never calls it
    there. *)
Theorem select_category_lists_or_notifies (bag : gmap string pyobj) (key : string) :
  handle_callbacks (press ("cat:" +:+ key)) (session bag) =
  Some (tt,
        {| user_data := bag;
           sent :=
             [ answer None false;
               match Py.get SWEET_CATALOGUE key with
               | Some (sweet :: sweets) =>
                   edit_message_text ("Категория: " +:+ _category_title key) None
                     (map sweet_row (sweet :: sweets) ++ [ [ back_button ] ])
               | _ => answer (Some "Категория не найдена"%string) true
               end ] |})
  /\ match Py.get SWEET_CATALOGUE key with
     | Some (_ :: _) => True
     | _ => _build_sweets_keyboard key = [ [ back_button ] ]
     end.
Proof.
  rewrite handle_press, route_cat. unfold _build_sweets_keyboard.
  destruct (Py.get SWEET_CATALOGUE key) as [[|sweet sweets]|].
  - split; reflexivity.
  - split; [|exact I]. rewrite sweets_keyboard_loop. reflexivity.
  - split; reflexivity.
Qed.

(** C4, as stated, fails: for a key that is not in the catalogue the
    handler sends the two answers and nothing that renders a screen. *)
Lemma unknown_category_renders_nothing :
  exists w',
    handle_callbacks (press "cat:marzipan") (session ∅) = Some (tt, w')
    /\ user_data w' = ∅
    /\ sent w' = [ answer None false;
                   answer (Some "Категория не найдена"%string) true ]
    /\ existsb renders_screen (sent w') = false.
Proof.
  exists {| user_data := ∅;
            sent := [ answer None false;
                      answer (Some "Категория не найдена"%string) true ] |}.
  split; [reflexivity|]. split; [reflexivity|]. split; reflexivity.
Qed.

(** C6.  From a session whose cart is empty, every finite sequence of
    adds and clears runs to the end, and every quantity then stored in
    the cart is strictly positive. *)
Theorem cart_ops_keep_quantities_positive
  (bag : gmap string pyobj) (ops : list cart_op) :
  cart_of bag = [] ->
  exists w',
    run_all run_op ops (session bag) = Some (tt, w')
    /\ positive_quantities (cart_of (user_data w')).
Proof.
  intros Hempty.
  apply (run_all_positive run_op run_op_cart_step ops (session bag)).
  simpl. rewrite Hempty. constructor.
Qed.

Lemma cart_ops_keep_quantities_positive_witness :
  cart_of ∅ = []
  /\ exists w',
       run_all run_op
         [ op_add "milk_chocolate"; op_add "milk_chocolate"; op_clear;
           op_add "unlisted"; op_add "salted_caramel" ] (session ∅) = Some (tt, w')
       /\ positive_quantities (cart_of (user_data w')).
Proof.
  assert (Hempty : cart_of ∅ = []) by reflexivity.
  split; [exact Hempty|].
  exact (cart_ops_keep_quantities_positive ∅ _ Hempty).
Defined.

(** X4.  The same holds for the router as a whole: from an empty cart, any
    sequence of updates, whatever their payloads, is handled without an
    exception and leaves only positive quantities. *)
Lemma updates_keep_quantities_positive
  (bag : gmap string pyobj) (updates : list Update) :
  cart_of bag = [] ->
  exists w',
    run_all handle_callbacks updates (session bag) = Some (tt, w')
    /\ positive_quantities (cart_of (user_data w')).
Proof.
  intros Hempty.
  apply (run_all_positive handle_callbacks handle_callbacks_cart_step
           updates (session bag)).
  simpl. rewrite Hempty. constructor.
Qed.

(** C7.  On a session bag that has no ["cart"] key, [_get_cart] returns the
    empty cart without an exception, and stores that cart in the bag.  The
    cart is still empty after any updates that are not add presses: they
    are all handled without an exception, and [_get_cart] then returns the
    empty cart again. *)
Theorem fresh_session_gets_empty_cart
  (bag : gmap string pyobj) (updates : list Update) :
  bag !! "cart" = None ->
  Forall (fun update => is_add_press update = false) updates ->
  _get_cart (session bag) = Some ([], session (<[ "cart" := PyDict [] ]> bag))
  /\ exists w' bag',
       run_all handle_callbacks updates (session bag) = Some (tt, w')
       /\ _get_cart w' = Some ([], {| user_data := bag'; sent := sent w' |}).
Proof.
  intros Hfresh Hupdates.
  assert (Hempty : cart_of bag = [])
    by (rewrite cart_of_lookup, Hfresh; reflexivity).
  split.
  - rewrite _get_cart_run. simpl. rewrite Hfresh. reflexivity.
  - destruct (run_all_without_add updates Hupdates (session bag) Hempty)
      as (w' & Hrun & Hstill).
    destruct (_get_cart_cart_of w') as (bag' & Hget & _).
    rewrite Hstill in Hget. exists w', bag'. split; assumption.
Qed.

Lemma fresh_session_gets_empty_cart_witness :
  (∅ : gmap string pyobj) !! "cart" = None
  /\ Forall (fun update => is_add_press update = false)
       [ press "cart:view"; press "item:dark_truffle"; press "cart:checkout" ]
  /\ _get_cart (session ∅) = Some ([], session (<[ "cart" := PyDict [] ]> ∅))
  /\ exists w' bag',
       run_all handle_callbacks
         [ press "cart:view"; press "item:dark_truffle"; press "cart:checkout" ]
         (session ∅) = Some (tt, w')
       /\ _get_cart w' = Some ([], {| user_data := bag'; sent := sent w' |}).
Proof.
  assert (Hfresh : (∅ : gmap string pyobj) !! "cart" = None) by reflexivity.
  assert (Hupdates : Forall (fun update => is_add_press update = false)
                       [ press "cart:view"; press "item:dark_truffle";
                         press "cart:checkout" ])
    by (repeat constructor).
  split; [exact Hfresh|]. split; [exact Hupdates|].
  exact (fresh_session_gets_empty_cart ∅ _ Hfresh Hupdates).
Defined.

(** C8.  On the built-in catalogue the chocolate button replaces the
    screen by the item list with the 220 sweet first and the 280 sweet
    second, each labelled with its name, a dash and the price, and the
    back button last.  A price is printed as the digits of the amount
    followed by a space and the rouble sign: for an amount that is not
    negative nothing but decimal digits comes before the suffix, and
    reading the digits back gives the amount. *)
Theorem chocolate_item_list :
  (forall bag : gmap string pyobj,
      handle_callbacks (press "cat:chocolate") (session bag) =
      Some (tt,
            {| user_data := bag;
               sent :=
                 [ answer None false;
                   edit_message_text "Категория: Шоколад" None
                     [ [ {| text := "Молочный шоколад — 220 ₽";
                            callback_data := "item:milk_chocolate" |} ];
                       [ {| text := "Трюфель 72% — 280 ₽";
                            callback_data := "item:dark_truffle" |} ];
                       [ {| text := "⬅️ Назад"; callback_data := "menu" |} ] ] ] |}))
  /\ _format_currency 220 = "220 ₽"%string
  /\ forall amount : N,
       exists digits,
         _format_currency (Z.of_N amount) = digits +:+ " ₽"
         /\ all_digits digits = true
         /\ option_map Z.of_int (NilZero.int_of_string digits) = Some (Z.of_N amount).
Proof.
  split; [|split].
  - intros bag. rewrite handle_press. reflexivity.
  - reflexivity.
  - intros amount. exists (Py.str_of_int (Z.of_N amount)).
    split; [reflexivity|]. split; [apply all_digits_of_N | apply str_of_int_exact].
Qed.

(** C9.  Pressing the add button of an id that does not resolve in the
    catalogue leaves the whole session bag as it was: the handler answers
    with the alert that the item was not found and returns before it
    reaches for the cart. *)
Theorem add_unknown_item_changes_nothing (bag : gmap string pyobj) (sweet_id : string) :
  _find_sweet_by_id sweet_id = None ->
  handle_callbacks (press ("add:" +:+ sweet_id)) (session bag) =
  Some (tt, {| user_data := bag;
               sent := [ answer None false;
                         answer (Some "Товар не найден"%string) true ] |}).
Proof. intros Hstale. rewrite handle_press, route_add, Hstale. reflexivity. Qed.

Lemma add_unknown_item_changes_nothing_witness :
  _find_sweet_by_id "nougat" = None
  /\ handle_callbacks (press "add:nougat")
       (session {[ "cart"%string := PyDict [ ("dark_truffle"%string, 1) ] ]}) =
     Some (tt, {| user_data := {[ "cart"%string := PyDict [ ("dark_truffle"%string, 1) ] ]};
                  sent := [ answer None false;
                            answer (Some "Товар не найден"%string) true ] |}).
Proof.
  split; [reflexivity|].
  exact (add_unknown_item_changes_nothing _ "nougat" eq_refl).
Defined.

(** On the bags of the typed model [_get_cart] never raises.  On every
    world it returns a cart and
    leaves a bag whose ["cart"] slot holds that very cart as a dict; the
    other keys and the calls sent are untouched.  A dict already in the
    slot is returned as it is and the bag is unchanged; any other object
    in the slot is replaced by a fresh empty dict, which is returned.  A
    second call returns the same cart and changes nothing. *)
Theorem _get_cart_always_returns_a_dict (w : world) :
  exists cart bag',
    _get_cart w = Some (cart, {| user_data := bag'; sent := sent w |})
    /\ bag' !! "cart" = Some (PyDict cart)
    /\ (forall key, key <> "cart"%string -> bag' !! key = user_data w !! key)
    /\ match user_data w !! "cart" with
       | Some (PyDict d) => cart = d /\ bag' = user_data w
       | _ => cart = [] /\ bag' = <[ "cart" := PyDict [] ]> (user_data w)
       end
    /\ _get_cart {| user_data := bag'; sent := sent w |} =
       Some (cart, {| user_data := bag'; sent := sent w |}).
Proof.
  rewrite _get_cart_run. destruct w as [bag calls]. simpl.
  destruct (bag !! "cart") as [o|] eqn:Eslot.
  - destruct o as [| | | |d];
      try (exists [], (<[ "cart" := PyDict [] ]> bag);
           split; [reflexivity|]; split; [apply lookup_insert_eq|];
           split; [intros key Hkey; apply lookup_insert_ne; congruence|];
           split; [split; reflexivity|];
           rewrite _get_cart_run; simpl; rewrite lookup_insert_eq; reflexivity).
    exists d, bag. split; [reflexivity|]. split; [exact Eslot|].
    split; [reflexivity|]. split; [split; reflexivity|].
    rewrite _get_cart_run. simpl. rewrite Eslot. reflexivity.
  - exists [], (<[ "cart" := PyDict [] ]> bag).
    split; [reflexivity|]. split; [apply lookup_insert_eq|].
    split; [intros key Hkey; apply lookup_insert_ne; congruence|].
    split; [split; reflexivity|].
    rewrite _get_cart_run. simpl. rewrite lookup_insert_eq. reflexivity.
Qed.

(** * Further properties of the module *)

(** ** Looking sweets up *)

Section Lookup.

Implicit Types (sweets : list Sweet) (categories : list (list Sweet)).

Lemma find_in_sweets_Some sweets sweet_id sweet :
  find_in_sweets sweets sweet_id = Some sweet ->
  id sweet = sweet_id /\ In sweet sweets.
Proof.
  induction sweets as [|first sweets IH]; simpl; [discriminate|].
  destruct (String.eqb (id first) sweet_id) eqn:E.
  - intros [= <-]. apply String.eqb_eq in E. auto.
  - intros H. destruct (IH H). auto.
Qed.

Lemma find_in_sweets_None sweets sweet_id :
  find_in_sweets sweets sweet_id = None ->
  forall sweet, In sweet sweets -> id sweet <> sweet_id.
Proof.
  induction sweets as [|first sweets IH]; simpl; [tauto|].
  destruct (String.eqb (id first) sweet_id) eqn:E; [discriminate|].
  apply String.eqb_neq in E. intros H sweet [<-|Hin]; auto.
Qed.

Lemma find_in_categories_Some categories sweet_id sweet :
  find_in_categories categories sweet_id = Some sweet ->
  id sweet = sweet_id /\ In sweet (concat categories).
Proof.
  induction categories as [|sweets categories IH]; simpl; [discriminate|].
  destruct (find_in_sweets sweets sweet_id) as [hit|] eqn:E.
  - intros [= <-]. destruct (find_in_sweets_Some _ _ _ E).
    split; [assumption | apply in_or_app; auto].
  - intros H. destruct (IH H). split; [assumption | apply in_or_app; auto].
Qed.

Lemma find_in_categories_None categories sweet_id :
  find_in_categories categories sweet_id = None ->
  forall sweet, In sweet (concat categories) -> id sweet <> sweet_id.
Proof.
  induction categories as [|sweets categories IH]; simpl; [tauto|].
  destruct (find_in_sweets sweets sweet_id) as [hit|] eqn:E; [discriminate|].
  intros H sweet Hin. apply in_app_or in Hin as [Hin|Hin].
  - exact (find_in_sweets_None _ _ E sweet Hin).
  - exact (IH H sweet Hin).
Qed.

(** The ids of the catalogue are pairwise distinct, so each listed sweet is
    the first hit for its own id. *)
Lemma find_listed_sweet sweet :
  In sweet all_sweets -> _find_sweet_by_id (id sweet) = Some sweet.
Proof.
  unfold all_sweets. simpl.
  intros [<-|[<-|[<-|[<-|[<-|[<-|[]]]]]]]; reflexivity.
Qed.

Lemma listed_price_positive sweet : In sweet all_sweets -> 0 < price_rub sweet.
Proof.
  unfold all_sweets. simpl.
  intros [<-|[<-|[<-|[<-|[<-|[<-|[]]]]]]]; reflexivity.
Qed.

Lemma get_In {V} (d : Py.dict V) k v : Py.get d k = Some v -> In v (Py.values d).
Proof.
  induction d as [|[k' v'] d IH]; simpl; [discriminate|].
  destruct (String.eqb k' k); [intros [= <-]; auto | auto].
Qed.

Lemma category_sweet_listed category sweets sweet :
  Py.get SWEET_CATALOGUE category = Some sweets ->
  In sweet sweets -> In sweet all_sweets.
Proof.
  intros Hget Hin. unfold all_sweets. apply in_concat.
  exists sweets. split; [exact (get_In _ _ _ Hget) | exact Hin].
Qed.

End Lookup.

(** X1.  [_find_sweet_by_id] answers with a sweet of the catalogue that
    carries the id asked for, and answers [None] only when no sweet of any
    category carries it. *)
Theorem find_sweet_by_id_sound_and_complete (sweet_id : string) :
  match _find_sweet_by_id sweet_id with
  | Some sweet => id sweet = sweet_id /\ In sweet all_sweets
  | None => forall sweet, In sweet all_sweets -> id sweet <> sweet_id
  end.
Proof.
  unfold _find_sweet_by_id, all_sweets.
  destruct (find_in_categories (Py.values SWEET_CATALOGUE) sweet_id) as [sweet|] eqn:E.
  - exact (find_in_categories_Some _ _ _ E).
  - exact (find_in_categories_None _ _ E).
Qed.

(** X2.  Looking a sweet of the catalogue up by its own id gives that very
    sweet back: no other sweet, in any category, shadows it. *)
Theorem catalogue_lookup_round_trip (sweet : Sweet) :
  In sweet all_sweets -> _find_sweet_by_id (id sweet) = Some sweet.
Proof. exact (find_listed_sweet sweet). Qed.

Lemma catalogue_lookup_round_trip_witness :
  In {| id := "hazelnut_caramel";
        name := "Карамель с фундуком";
        price_rub := 190;
        description := "Мягкая карамель, украшенная дробленым фундуком." |}
     all_sweets
  /\ _find_sweet_by_id "hazelnut_caramel" =
     Some {| id := "hazelnut_caramel";
             name := "Карамель с фундуком";
             price_rub := 190;
             description := "Мягкая карамель, украшенная дробленым фундуком." |}.
Proof.
  assert (Hin : In {| id := "hazelnut_caramel";
                      name := "Карамель с фундуком";
                      price_rub := 190;
                      description :=
                        "Мягкая карамель, украшенная дробленым фундуком." |}
                   all_sweets)
    by (unfold all_sweets; simpl; tauto).
  split; [exact Hin|].
  exact (catalogue_lookup_round_trip _ Hin).
Defined.

(** ** What a press does to the session bag *)

Section RouterEffects.

Implicit Types (bag : gmap string pyobj) (w : world) (cart : Py.dict Z).

Lemma route_item sweet_id :
  route ("item:" +:+ sweet_id) =
  match _find_sweet_by_id sweet_id with
  | None => await (answer (Some "Товар не найден"%string) true)
  | Some sweet =>
      await (edit_message_text
               ("<b>" +:+ name sweet +:+ "</b>" +:+ Py.nl
                +:+ "Цена: " +:+ _format_currency (price_rub sweet)
                +:+ Py.nl +:+ Py.nl +:+ description sweet)
               (Some HTML) (_build_item_keyboard sweet))
  end.
Proof. reflexivity. Qed.

Lemma route_cart action :
  route ("cart:" +:+ action) =
  (cart <- _get_cart ;;
   if String.eqb action "view" then
     await (edit_message_text (_format_cart cart) None (_build_cart_keyboard cart))
   else if String.eqb action "clear" then
     cart <- clear_cart cart ;;
     await (edit_message_text "Корзина очищена. Чем еще можем порадовать?" None
              (_build_cart_keyboard cart))
   else if String.eqb action "checkout" then
     if negb (Py.truthy cart) then
       await (answer (Some "Корзина пуста"%string) true)
     else
       await (edit_message_text thanks_text None _build_categories_keyboard) ;;
       _ <- clear_cart cart ;;
       ret tt
   else unknown_callback)%handler.
Proof. reflexivity. Qed.

(** [_get_cart] in terms of the cart of the session. *)
Lemma _get_cart_normalises w :
  _get_cart w =
  Some (cart_of (user_data w),
        {| user_data := <[ "cart" := PyDict (cart_of (user_data w)) ]> (user_data w);
           sent := sent w |}).
Proof. destruct (_get_cart_cart_of w) as (bag' & -> & _ & <-). reflexivity. Qed.

(** The three things a routed payload can do to the session bag: nothing;
    one more of a sweet that resolves, under ["add:"]; or, under
    ["cart:"], putting the cart in its slot as it is or emptied. *)
Lemma route_bag_cases payload w :
  exists w',
    route payload w = Some (tt, w')
    /\ (user_data w' = user_data w
        \/ (exists sweet_id sweet,
               payload = "add:" +:+ sweet_id
               /\ _find_sweet_by_id sweet_id = Some sweet
               /\ user_data w' =
                  <[ "cart" := PyDict (Py.setitem (cart_of (user_data w)) sweet_id
                                         (Py.get_or (cart_of (user_data w)) sweet_id 0 + 1)) ]>
                    (user_data w))
        \/ (exists action,
               payload = "cart:" +:+ action
               /\ (user_data w' =
                   <[ "cart" := PyDict (cart_of (user_data w)) ]> (user_data w)
                   \/ user_data w' = <[ "cart" := PyDict [] ]> (user_data w)))).
Proof.
  unfold route.
  destruct (String.eqb payload "menu").
  { eexists. split; [reflexivity | left; reflexivity]. }
  destruct (Py.startswith payload "cat:") eqn:Ecat.
  { apply startswith_inv in Ecat as [rest ->].
    rewrite item_split1_cat, bind_ret.
    destruct (Py.get SWEET_CATALOGUE rest) as [[|? ?]|];
      eexists; (split; [reflexivity | left; reflexivity]). }
  destruct (Py.startswith payload "item:") eqn:Eitem.
  { apply startswith_inv in Eitem as [rest ->].
    rewrite item_split1_item, bind_ret.
    destruct (_find_sweet_by_id rest);
      eexists; (split; [reflexivity | left; reflexivity]). }
  destruct (Py.startswith payload "add:") eqn:Eadd.
  { apply startswith_inv in Eadd as [rest ->].
    rewrite item_split1_add, bind_ret.
    destruct (_find_sweet_by_id rest) as [sweet|] eqn:Hfound.
    - unfold bind at 1. rewrite add_to_cart_run.
      eexists. split; [reflexivity|]. right; left.
      exists rest, sweet. auto.
    - eexists. split; [reflexivity | left; reflexivity]. }
  destruct (Py.startswith payload "cart:") eqn:Ecart.
  { apply startswith_inv in Ecart as [action ->].
    rewrite item_split1_cart, bind_ret.
    unfold bind at 1. rewrite _get_cart_normalises.
    destruct (String.eqb action "view").
    { eexists. split; [reflexivity|]. right; right. exists action. auto. }
    destruct (String.eqb action "clear").
    { eexists. split; [reflexivity|]. right; right. exists action.
      split; [reflexivity|]. right. simpl. apply insert_insert_eq. }
    destruct (String.eqb action "checkout").
    { destruct (Py.truthy (cart_of (user_data w))); simpl.
      - eexists. split; [reflexivity|]. right; right. exists action.
        split; [reflexivity|]. right. simpl. apply insert_insert_eq.
      - eexists. split; [reflexivity|]. right; right. exists action. auto. }
    eexists. split; [reflexivity|]. right; right. exists action. auto. }
  eexists. split; [reflexivity | left; reflexivity].
Qed.

Lemma setitem_Forall_key {V} (P : string * V -> Prop) (d : Py.dict V) k v :
  Forall P d -> P (k, v) -> Forall P (Py.setitem d k v).
Proof.
  intros Hd Hv. induction Hd as [|[k' v'] d Hx Hd IH]; simpl.
  - constructor; [exact Hv | constructor].
  - destruct (String.eqb k' k) eqn:E; constructor; auto.
    apply String.eqb_eq in E. subst k'. exact Hv.
Qed.

(** A routed payload keeps the quantities positive and the ids
    resolvable. *)
Lemma route_keeps_cart_sound payload w :
  positive_quantities (cart_of (user_data w)) ->
  resolvable_ids (cart_of (user_data w)) ->
  exists w',
    route payload w = Some (tt, w')
    /\ positive_quantities (cart_of (user_data w'))
    /\ resolvable_ids (cart_of (user_data w')).
Proof.
  intros Hpos Hres.
  destruct (route_bag_cases payload w)
    as (w' & Hrun & [Hsame|[(sweet_id & sweet & _ & Hfound & Hbag)
                           |(action & _ & [Hbag|Hbag])]]);
    exists w'; (split; [exact Hrun|]); rewrite ?Hsame, ?Hbag, ?cart_of_insert;
    try (split; assumption); try (split; constructor).
  split.
  - apply setitem_Forall_key; [exact Hpos|]. simpl.
    pose proof (positive_get_or _ sweet_id Hpos). lia.
  - apply setitem_Forall_key; [exact Hres|]. simpl. rewrite Hfound. eexists; reflexivity.
Qed.

Lemma handle_callbacks_keeps_cart_sound (update : Update) w :
  positive_quantities (cart_of (user_data w)) ->
  resolvable_ids (cart_of (user_data w)) ->
  exists w',
    handle_callbacks update w = Some (tt, w')
    /\ positive_quantities (cart_of (user_data w'))
    /\ resolvable_ids (cart_of (user_data w')).
Proof.
  intros Hpos Hres. unfold handle_callbacks.
  destruct (callback_query update) as [query|].
  - rewrite bind_await. apply route_keeps_cart_sound; assumption.
  - exists w. auto.
Qed.

Lemma run_all_keeps_cart_sound (updates : list Update) :
  forall w,
    positive_quantities (cart_of (user_data w)) ->
    resolvable_ids (cart_of (user_data w)) ->
    exists w',
      run_all handle_callbacks updates w = Some (tt, w')
      /\ positive_quantities (cart_of (user_data w'))
      /\ resolvable_ids (cart_of (user_data w')).
Proof.
  induction updates as [|update updates IH]; intros w Hpos Hres; simpl.
  - exists w. auto.
  - destruct (handle_callbacks_keeps_cart_sound update w Hpos Hres)
      as (w1 & Hrun & Hpos1 & Hres1).
    unfold bind. rewrite Hrun. apply IH; assumption.
Qed.

(** The same for the ids alone, whatever the quantities. *)
Lemma route_keeps_ids_resolvable payload w :
  resolvable_ids (cart_of (user_data w)) ->
  exists w',
    route payload w = Some (tt, w')
    /\ resolvable_ids (cart_of (user_data w')).
Proof.
  intros Hres.
  destruct (route_bag_cases payload w)
    as (w' & Hrun & [Hsame|[(sweet_id & sweet & _ & Hfound & Hbag)
                           |(action & _ & [Hbag|Hbag])]]);
    exists w'; (split; [exact Hrun|]); rewrite ?Hsame, ?Hbag, ?cart_of_insert;
    try assumption; try constructor.
  apply setitem_Forall_key; [exact Hres|]. simpl. rewrite Hfound. eexists; reflexivity.
Qed.

Lemma run_all_keeps_ids_resolvable (updates : list Update) :
  forall w,
    resolvable_ids (cart_of (user_data w)) ->
    exists w',
      run_all handle_callbacks updates w = Some (tt, w')
      /\ resolvable_ids (cart_of (user_data w')).
Proof.
  induction updates as [|update updates IH]; intros w Hres; simpl.
  - exists w. auto.
  - assert (Hstep : exists w1,
               handle_callbacks update w = Some (tt, w1)
               /\ resolvable_ids (cart_of (user_data w1))).
    { unfold handle_callbacks.
      destruct (callback_query update) as [query|].
      - rewrite bind_await. apply route_keeps_ids_resolvable. exact Hres.
      - exists w. auto. }
    destruct Hstep as (w1 & Hrun & Hres1).
    unfold bind. rewrite Hrun. apply IH. exact Hres1.
Qed.

End RouterEffects.

(** X3.  Browsing changes nothing in the session: a press whose payload
    starts with neither ["add:"] nor ["cart:"] (the menu, a category, an
    item, anything unknown) is handled without an exception and leaves the
    whole session bag as it was. *)
Theorem browsing_keeps_session (payload : string) (w : world) :
  Py.startswith payload "add:" = false ->
  Py.startswith payload "cart:" = false ->
  exists w',
    handle_callbacks (press payload) w = Some (tt, w')
    /\ user_data w' = user_data w.
Proof.
  intros Hadd Hcart. rewrite handle_press.
  match goal with
  | |- context [route payload ?w1] =>
      destruct (route_bag_cases payload w1)
        as (w' & Hrun & [Hsame|[(sweet_id & _ & -> & _)|(action & -> & _)]])
  end.
  - exists w'. split; [exact Hrun | exact Hsame].
  - discriminate Hadd.
  - discriminate Hcart.
Qed.

Lemma browsing_keeps_session_witness :
  Py.startswith "item:dark_truffle" "add:" = false
  /\ Py.startswith "item:dark_truffle" "cart:" = false
  /\ exists w',
       handle_callbacks (press "item:dark_truffle")
         (session {[ "cart"%string := PyStr "not a cart" ]}) = Some (tt, w')
       /\ user_data w' = {[ "cart"%string := PyStr "not a cart" ]}.
Proof.
  split; [reflexivity|]. split; [reflexivity|].
  exact (browsing_keeps_session "item:dark_truffle"
           (session {[ "cart"%string := PyStr "not a cart" ]}) eq_refl eq_refl).
Defined.

Lemma updates_keep_quantities_positive_witness :
  cart_of ∅ = []
  /\ exists w',
       run_all handle_callbacks
         [ press "add:dark_truffle"; press "cart:view"; press "add:dark_truffle";
           press "add:nougat"; press "cart:bogus"; press "add:salted_caramel" ]
         (session ∅) = Some (tt, w')
       /\ positive_quantities (cart_of (user_data w')).
Proof.
  assert (Hempty : cart_of ∅ = []) by reflexivity.
  split; [exact Hempty|].
  exact (updates_keep_quantities_positive ∅ _ Hempty).
Defined.

(** X5.  The router never stores an id that does not resolve: from a cart
    whose ids all resolve in the catalogue, whatever its quantities, any
    sequence of updates is handled to the end and leaves a cart whose ids
    all resolve. *)
Theorem updates_keep_ids_resolvable
  (bag : gmap string pyobj) (updates : list Update) :
  resolvable_ids (cart_of bag) ->
  exists w',
    run_all handle_callbacks updates (session bag) = Some (tt, w')
    /\ resolvable_ids (cart_of (user_data w')).
Proof.
  intros Hres.
  exact (run_all_keeps_ids_resolvable updates (session bag) Hres).
Qed.

Lemma updates_keep_ids_resolvable_witness :
  resolvable_ids
    (cart_of {[ "cart"%string :=
                  PyDict [ ("milk_chocolate"%string, 0); ("dark_truffle"%string, -2) ] ]})
  /\ exists w',
       run_all handle_callbacks
         [ press "add:nougat"; press "add:red_velvet_cookie"; press "add:";
           press "add:milk_chocolate" ]
         (session {[ "cart"%string :=
                       PyDict [ ("milk_chocolate"%string, 0);
                                ("dark_truffle"%string, -2) ] ]}) = Some (tt, w')
       /\ resolvable_ids (cart_of (user_data w')).
Proof.
  assert (Hres :
            resolvable_ids
              (cart_of {[ "cart"%string :=
                            PyDict [ ("milk_chocolate"%string, 0);
                                     ("dark_truffle"%string, -2) ] ]})).
  { vm_compute. repeat constructor; eexists; reflexivity. }
  split; [exact Hres|].
  exact (updates_keep_ids_resolvable _ _ Hres).
Defined.

(** X6.  The clear button empties the cart whatever the session held
    before, also when the cart slot was missing or held something that is
    not a dict, and touches no other key.  The screen it sends is built
    after the clearing, so its keyboard has the back button only. *)
Theorem clear_press_empties_cart (w : world) :
  handle_callbacks (press "cart:clear") w =
  Some (tt,
        {| user_data := <[ "cart" := PyDict [] ]> (user_data w);
           sent := sent w
                   ++ [ answer None false;
                        edit_message_text "Корзина очищена. Чем еще можем порадовать?"
                          None
                          [ [ {| text := "⬅️ К товарам"; callback_data := "menu" |} ] ] ] |})
  /\ cart_of (<[ "cart" := PyDict [] ]> (user_data w)) = []
  /\ forall key,
       key <> "cart"%string ->
       <[ "cart" := PyDict [] ]> (user_data w) !! key = user_data w !! key.
Proof.
  split; [|split].
  - rewrite handle_press.
    change "cart:clear"%string with ("cart:" +:+ "clear")%string.
    rewrite route_cart. simpl.
    rewrite <- bind_bind. unfold bind at 1. rewrite clear_after_get_run.
    simpl. unfold await. simpl. rewrite <- app_assoc. reflexivity.
  - apply cart_of_insert.
  - intros key Hkey. apply lookup_insert_ne. congruence.
Qed.

(** X7.  The checkout button is only worth pressing when it is shown: if
    the keyboard drawn for the cart of the session has the checkout button,
    pressing it sends the confirmation screen, never the alert that the
    cart is empty, and leaves the cart empty. *)
Theorem offered_checkout_confirms (bag : gmap string pyobj) :
  In {| text := "Оформить заказ"; callback_data := "cart:checkout" |}
     (concat (_build_cart_keyboard (cart_of bag))) ->
  handle_callbacks (press "cart:checkout") (session bag) =
  Some (tt, {| user_data := <[ "cart" := PyDict [] ]> bag;
               sent := [ answer None false;
                         edit_message_text thanks_text None
                           _build_categories_keyboard ] |})
  /\ cart_of (<[ "cart" := PyDict [] ]> bag) = [].
Proof.
  intros Hshown. split; [|apply cart_of_insert].
  rewrite handle_press, route_checkout. unfold bind at 1.
  rewrite _get_cart_normalises. simpl.
  destruct (cart_of bag) as [|entry cart] eqn:Hcart.
  - simpl in Hshown. destruct Hshown as [Hback|[]]. discriminate Hback.
  - simpl. rewrite bind_await. unfold bind, clear_cart.
    rewrite mutate_cart_run. cbn [user_data sent ret].
    rewrite insert_insert_eq. reflexivity.
Qed.

Lemma offered_checkout_confirms_witness :
  In {| text := "Оформить заказ"; callback_data := "cart:checkout" |}
     (concat (_build_cart_keyboard
                (cart_of {[ "cart"%string := PyDict [ ("salted_caramel"%string, 3) ] ]})))
  /\ handle_callbacks (press "cart:checkout")
       (session {[ "cart"%string := PyDict [ ("salted_caramel"%string, 3) ] ]}) =
     Some (tt, {| user_data :=
                    <[ "cart" := PyDict [] ]>
                      {[ "cart"%string := PyDict [ ("salted_caramel"%string, 3) ] ]};
                  sent := [ answer None false;
                            edit_message_text thanks_text None
                              _build_categories_keyboard ] |}).
Proof.
  assert (Hshown :
            In {| text := "Оформить заказ"; callback_data := "cart:checkout" |}
               (concat (_build_cart_keyboard
                          (cart_of {[ "cart"%string :=
                                        PyDict [ ("salted_caramel"%string, 3) ] ]}))))
    by (vm_compute; tauto).
  split; [exact Hshown|].
  exact (proj1 (offered_checkout_confirms _ Hshown)).
Defined.

Lemma cart_command_shows_cart_witness :
  effective_message (press "") = true
  /\ exists bag',
       cart_command (press "") (session ∅) =
       Some (tt, {| user_data := bag';
                    sent := [ reply_text cart_empty_text
                                [ [ {| text := "⬅️ К товарам";
                                       callback_data := "menu" |} ] ] ] |})
       /\ cart_of bag' = [].
Proof.
  split; [reflexivity|].
  destruct (cart_command_shows_cart (press "") (session ∅) eq_refl)
    as (bag' & Hrun & Hsame).
  exists bag'. split; [exact Hrun | exact Hsame].
Defined.

Lemma press_add_runs_add_witness :
  _find_sweet_by_id "choco_chip_cookie" =
  Some {| id := "choco_chip_cookie";
          name := "Печенье с шоколадной крошкой";
          price_rub := 120;
          description := "Домашнее печенье из сливочного теста, щедро"
                         +:+ " посыпанное шоколадом." |}
  /\ exists bag' calls,
       handle_callbacks (press "add:choco_chip_cookie")
         (session {[ "cart"%string := PyDict [ ("choco_chip_cookie"%string, 4) ] ]}) =
       Some (tt, {| user_data := bag'; sent := calls |})
       /\ cart_of bag' = [ ("choco_chip_cookie"%string, 5) ].
Proof.
  split; [reflexivity|].
  eexists. eexists. split.
  - exact (press_add_runs_add
             {[ "cart"%string := PyDict [ ("choco_chip_cookie"%string, 4) ] ]}
             "choco_chip_cookie" _ eq_refl).
  - rewrite cart_of_insert. reflexivity.
Defined.

(** ** Adding through the router *)

Section PressAdd.

Implicit Types (w : world) (cart : Py.dict Z).

Lemma press_add_world sweet_id sweet w :
  _find_sweet_by_id sweet_id = Some sweet ->
  handle_callbacks (press ("add:" +:+ sweet_id)) w =
  Some (tt,
        {| user_data :=
             <[ "cart" := PyDict (Py.setitem (cart_of (user_data w)) sweet_id
                                    (Py.get_or (cart_of (user_data w)) sweet_id 0 + 1)) ]>
               (user_data w);
           sent := sent w
                   ++ [ answer None false;
                        answer (Some "Добавлено в корзину"%string) false;
                        edit_message_reply_markup (_build_item_keyboard sweet) ] |}).
Proof.
  intros Hfound. rewrite handle_press, route_add, Hfound.
  unfold bind at 1. rewrite add_to_cart_run.
  unfold bind, await. cbn [user_data sent]. rewrite <- !app_assoc. reflexivity.
Qed.

(** A cart that holds one sweet only, after one more of it. *)
Lemma setitem_single sweet_id (k : Z) :
  Py.setitem [ (sweet_id, k) ] sweet_id (Py.get_or [ (sweet_id, k) ] sweet_id 0 + 1) =
  [ (sweet_id, k + 1) ].
Proof. unfold Py.get_or. simpl. rewrite String.eqb_refl. reflexivity. Qed.

Lemma repeated_press_single sweet_id sweet (n : nat) :
  _find_sweet_by_id sweet_id = Some sweet ->
  forall w (k : Z),
    cart_of (user_data w) = [ (sweet_id, k) ] ->
    exists w',
      run_all handle_callbacks (repeat (press ("add:" +:+ sweet_id)) n) w = Some (tt, w')
      /\ cart_of (user_data w') = [ (sweet_id, k + Z.of_nat n) ].
Proof.
  intros Hfound. induction n as [|n IH]; intros w k Hcart.
  - exists w. split; [reflexivity|]. rewrite Hcart, Z.add_0_r. reflexivity.
  - change (repeat (press ("add:" +:+ sweet_id)) (S n))
      with (press ("add:" +:+ sweet_id) :: repeat (press ("add:" +:+ sweet_id)) n).
    cbn [run_all]. unfold bind at 1.
    rewrite (press_add_world sweet_id sweet w Hfound), Hcart, setitem_single.
    match goal with
    | |- context [run_all _ _ ?w1] => destruct (IH w1 (k + 1)) as (w' & Hrun & Hcart')
    end.
    { cbn [user_data]. apply cart_of_insert. }
    exists w'. split; [exact Hrun|]. rewrite Hcart'. do 2 f_equal. lia.
Qed.

End PressAdd.

(** X11.  Pressing the add button of a sweet of the catalogue once or more
    on a session whose cart is empty gives a cart with that sweet alone,
    at the number of presses; its text has the one line for the sweet and a
    footer of the price times the number of presses. *)
Theorem repeated_press_then_cart_text
  (bag : gmap string pyobj) (sweet_id : string) (sweet : Sweet) (n : nat) :
  _find_sweet_by_id sweet_id = Some sweet ->
  cart_of bag = [] ->
  exists w',
    run_all handle_callbacks (repeat (press ("add:" +:+ sweet_id)) (S n)) (session bag)
    = Some (tt, w')
    /\ cart_of (user_data w') = [ (sweet_id, Z.of_nat (S n)) ]
    /\ _format_cart (cart_of (user_data w')) =
       Py.join Py.nl
         [ cart_header;
           cart_line sweet (Z.of_nat (S n));
           ""%string;
           cart_total_line (price_rub sweet * Z.of_nat (S n));
           cart_closing_line ].
Proof.
  intros Hfound Hempty.
  change (repeat (press ("add:" +:+ sweet_id)) (S n))
    with (press ("add:" +:+ sweet_id) :: repeat (press ("add:" +:+ sweet_id)) n).
  cbn [run_all]. unfold bind at 1.
  rewrite (press_add_world sweet_id sweet (session bag) Hfound).
  cbn [user_data session]. rewrite Hempty.
  match goal with
  | |- context [run_all _ _ ?w1] =>
      destruct (repeated_press_single sweet_id sweet n Hfound w1 1)
        as (w' & Hrun & Hcart)
  end.
  { cbn [user_data]. rewrite cart_of_insert. reflexivity. }
  assert (Hcount : 1 + Z.of_nat n = Z.of_nat (S n)) by lia.
  rewrite Hcount in Hcart.
  exists w'. split; [exact Hrun|]. split; [exact Hcart|].
  rewrite Hcart. rewrite _format_cart_nonempty by discriminate.
  rewrite format_cart_lines_eq.
  unfold resolvable_sum, resolved_entries. simpl. rewrite Hfound. simpl.
  rewrite Z.add_0_r. reflexivity.
Qed.

Lemma repeated_press_then_cart_text_witness :
  _find_sweet_by_id "milk_chocolate" =
  Some {| id := "milk_chocolate";
          name := "Молочный шоколад";
          price_rub := 220;
          description := "Классическая плитка молочного шоколада с легкой"
                         +:+ " карамельной ноткой." |}
  /\ cart_of ∅ = []
  /\ exists w',
       run_all handle_callbacks
         [ press "add:milk_chocolate"; press "add:milk_chocolate" ] (session ∅)
       = Some (tt, w')
       /\ _format_cart (cart_of (user_data w')) =
          Py.join Py.nl
            [ cart_header;
              "• Молочный шоколад — 2 шт. × 220 ₽ = 440 ₽"%string;
              ""%string;
              "Итого к оплате: 440 ₽"%string;
              cart_closing_line ].
Proof.
  assert (Hempty : cart_of ∅ = []) by reflexivity.
  split; [reflexivity|]. split; [exact Hempty|].
  destruct (repeated_press_then_cart_text ∅ "milk_chocolate" _ 1 eq_refl Hempty)
    as (w' & Hrun & _ & Htext).
  exists w'. split; [exact Hrun | exact Htext].
Defined.

(** X12.  An add never reorders the cart: a sweet that is already in it
    keeps its place, a new one goes last, and the keys stay distinct. *)
Theorem add_keeps_cart_order (bag : gmap string pyobj) (sweet_id : string) :
  exists bag1,
    add_to_cart sweet_id (session bag) = Some (tt, session bag1)
    /\ Py.keys (cart_of bag1) =
       match Py.get (cart_of bag) sweet_id with
       | Some _ => Py.keys (cart_of bag)
       | None => Py.keys (cart_of bag) ++ [ sweet_id ]
       end
    /\ (List.NoDup (Py.keys (cart_of bag)) -> List.NoDup (Py.keys (cart_of bag1))).
Proof.
  eexists. split; [apply add_to_cart_run|]. cbn [user_data session].
  rewrite cart_of_insert. split.
  - destruct (Py.get (cart_of bag) sweet_id) as [v0|] eqn:E.
    + exact (keys_setitem_present _ _ _ v0 E).
    + rewrite (setitem_absent _ _ _ E). unfold Py.keys. rewrite map_app. reflexivity.
  - apply setitem_NoDup.
Qed.

(** X13.  A cart that is not empty but holds only ids that do not resolve
    is not shown as empty: its text has the header, no line, and a footer
    of zero. *)
Theorem unresolvable_cart_shows_zero (cart : Py.dict Z) :
  cart <> [] ->
  Forall (fun entry => _find_sweet_by_id (fst entry) = None) cart ->
  _format_cart cart =
  Py.join Py.nl [ cart_header; ""%string; cart_total_line 0; cart_closing_line ].
Proof.
  intros Hne Hstale. rewrite _format_cart_nonempty by exact Hne.
  rewrite format_cart_lines_eq.
  assert (Hnone : resolved_entries cart = []).
  { clear Hne. unfold resolved_entries.
    induction Hstale as [|entry cart Hentry _ IH]; [reflexivity|].
    cbn [omap list_omap]. rewrite Hentry. exact IH. }
  unfold resolvable_sum. rewrite Hnone. reflexivity.
Qed.

Lemma unresolvable_cart_shows_zero_witness :
  [ ("discontinued"%string, 3) ] <> []
  /\ Forall (fun entry : string * Z => _find_sweet_by_id (fst entry) = None)
       [ ("discontinued"%string, 3) ]
  /\ _format_cart [ ("discontinued"%string, 3) ] =
     Py.join Py.nl
       [ cart_header; ""%string; "Итого к оплате: 0 ₽"%string; cart_closing_line ].
Proof.
  assert (Hne : [ ("discontinued"%string, 3) ] <> []) by discriminate.
  assert (Hstale : Forall (fun entry : string * Z =>
                             _find_sweet_by_id (fst entry) = None)
                     [ ("discontinued"%string, 3) ])
    by (repeat constructor).
  split; [exact Hne|]. split; [exact Hstale|].
  exact (unresolvable_cart_shows_zero _ Hne Hstale).
Defined.

(** ** Every button that is drawn can be pressed *)

Section Buttons.

Implicit Types (w : world) (button : InlineKeyboardButton).

Lemma opens_screen_menu w : opens_screen "menu" w.
Proof.
  unfold opens_screen. rewrite handle_press.
  eexists. eexists. split; [reflexivity|]. cbn [sent].
  split; [rewrite <- app_assoc; reflexivity|]. split; reflexivity.
Qed.

Lemma opens_screen_cat category sweet sweets w :
  Py.get SWEET_CATALOGUE category = Some (sweet :: sweets) ->
  opens_screen ("cat:" +:+ category) w.
Proof.
  intros Hget. unfold opens_screen. rewrite handle_press, route_cat, Hget.
  eexists. eexists. split; [reflexivity|]. cbn [sent].
  split; [rewrite <- app_assoc; reflexivity|]. split; reflexivity.
Qed.

Lemma opens_screen_item sweet w :
  In sweet all_sweets -> opens_screen ("item:" +:+ id sweet) w.
Proof.
  intros Hlisted. unfold opens_screen.
  rewrite handle_press, route_item, (find_listed_sweet sweet Hlisted).
  eexists. eexists. split; [reflexivity|]. cbn [sent].
  split; [rewrite <- app_assoc; reflexivity|]. split; reflexivity.
Qed.

Lemma opens_screen_add sweet w :
  In sweet all_sweets -> opens_screen ("add:" +:+ id sweet) w.
Proof.
  intros Hlisted. unfold opens_screen.
  rewrite (press_add_world (id sweet) sweet w (find_listed_sweet sweet Hlisted)).
  eexists. eexists. split; [reflexivity|]. cbn [sent].
  split; [reflexivity|]. split; reflexivity.
Qed.

Lemma opens_screen_view w : opens_screen "cart:view" w.
Proof.
  unfold opens_screen. rewrite handle_press.
  change "cart:view"%string with ("cart:" +:+ "view")%string.
  rewrite route_cart. unfold bind. rewrite _get_cart_normalises.
  eexists. eexists. split; [reflexivity|]. cbn [sent user_data].
  split; [rewrite <- app_assoc; reflexivity|]. split; reflexivity.
Qed.

Lemma opens_screen_clear w : opens_screen "cart:clear" w.
Proof.
  unfold opens_screen. rewrite handle_press.
  change "cart:clear"%string with ("cart:" +:+ "clear")%string.
  rewrite route_cart. unfold bind. rewrite _get_cart_normalises.
  eexists. eexists. split; [reflexivity|]. cbn [sent user_data].
  split; [rewrite <- app_assoc; reflexivity|]. split; reflexivity.
Qed.

Lemma opens_screen_checkout w :
  cart_of (user_data w) <> [] -> opens_screen "cart:checkout" w.
Proof.
  intros Hne. unfold opens_screen. rewrite handle_press, route_checkout.
  unfold bind at 1. rewrite _get_cart_normalises. cbn [user_data sent].
  destruct (cart_of (user_data w)) as [|entry cart]; [congruence|].
  eexists. eexists. split; [reflexivity|]. cbn [sent user_data].
  split; [rewrite <- app_assoc; reflexivity|]. split; reflexivity.
Qed.

Lemma categories_keyboard_opens row button w :
  In row _build_categories_keyboard ->
  In button row ->
  opens_screen (callback_data button) w.
Proof.
  unfold _build_categories_keyboard. simpl.
  intros [<-|[<-|[<-|[<-|[]]]]] [<-|[]]; simpl.
  - exact (opens_screen_cat "chocolate" _ _ w eq_refl).
  - exact (opens_screen_cat "caramel" _ _ w eq_refl).
  - exact (opens_screen_cat "cookies" _ _ w eq_refl).
  - exact (opens_screen_view w).
Qed.

Lemma sweets_keyboard_opens category row button w :
  In row (_build_sweets_keyboard category) ->
  In button row ->
  opens_screen (callback_data button) w.
Proof.
  unfold _build_sweets_keyboard.
  destruct (Py.get SWEET_CATALOGUE category) as [[|first sweets]|] eqn:Hget.
  - intros [<-|[]] [<-|[]]. apply opens_screen_menu.
  - rewrite sweets_keyboard_loop. intros Hrow Hbutton.
    apply in_app_or in Hrow as [Hrow|[<-|[]]].
    + apply in_map_iff in Hrow as (sweet & <- & Hsweet).
      destruct Hbutton as [<-|[]]. simpl.
      apply opens_screen_item.
      exact (category_sweet_listed category _ sweet Hget Hsweet).
    + destruct Hbutton as [<-|[]]. apply opens_screen_menu.
  - intros [<-|[]] [<-|[]]. apply opens_screen_menu.
Qed.

Lemma item_keyboard_opens sweet row button w :
  In sweet all_sweets ->
  In row (_build_item_keyboard sweet) ->
  In button row ->
  opens_screen (callback_data button) w.
Proof.
  intros Hlisted [<-|[<-|[]]].
  - intros [<-|[]]. simpl. apply opens_screen_add, Hlisted.
  - intros [<-|[<-|[]]]; simpl.
    + apply opens_screen_view.
    + apply opens_screen_menu.
Qed.

Lemma cart_keyboard_opens row button w :
  In row (_build_cart_keyboard (cart_of (user_data w))) ->
  In button row ->
  opens_screen (callback_data button) w.
Proof.
  unfold _build_cart_keyboard.
  destruct (cart_of (user_data w)) as [|entry cart] eqn:Hcart; simpl.
  - intros [<-|[]] [<-|[]]. apply opens_screen_menu.
  - intros [<-|[<-|[]]].
    + intros [<-|[<-|[]]]; simpl.
      * apply opens_screen_clear.
      * apply opens_screen_checkout. congruence.
    + intros [<-|[]]. apply opens_screen_menu.
Qed.

End Buttons.

(** X14.  Every button of the category keyboard can be pressed: each
    category button opens the list of a category that has sweets, and the
    cart button opens the cart; none ends in an alert. *)
Theorem categories_keyboard_buttons_work
  (row : list InlineKeyboardButton) (button : InlineKeyboardButton) (w : world) :
  In row _build_categories_keyboard ->
  In button row ->
  opens_screen (callback_data button) w.
Proof. exact (categories_keyboard_opens row button w). Qed.

Lemma categories_keyboard_buttons_work_witness :
  In [ {| text := "Карамель"; callback_data := "cat:caramel" |} ]
     _build_categories_keyboard
  /\ In {| text := "Карамель"; callback_data := "cat:caramel" |}
        [ {| text := "Карамель"; callback_data := "cat:caramel" |} ]
  /\ opens_screen "cat:caramel" (session ∅).
Proof.
  assert (Hrow : In [ {| text := "Карамель"; callback_data := "cat:caramel" |} ]
                    _build_categories_keyboard)
    by (vm_compute; tauto).
  assert (Hbutton : In {| text := "Карамель"; callback_data := "cat:caramel" |}
                       [ {| text := "Карамель"; callback_data := "cat:caramel" |} ])
    by (simpl; tauto).
  split; [exact Hrow|]. split; [exact Hbutton|].
  exact (categories_keyboard_buttons_work _ _ (session ∅) Hrow Hbutton).
Defined.

(** X15.  Every button of the sweets keyboard of any category key can be
    pressed: each item button carries the id of a sweet that the lookup
    finds, so it opens that sweet, and the back button opens the menu.
    This holds for an unknown key too, where the keyboard is the back
    button alone. *)
Theorem sweets_keyboard_buttons_work
  (category : string) (row : list InlineKeyboardButton)
  (button : InlineKeyboardButton) (w : world) :
  In row (_build_sweets_keyboard category) ->
  In button row ->
  opens_screen (callback_data button) w.
Proof. exact (sweets_keyboard_opens category row button w). Qed.

Lemma sweets_keyboard_buttons_work_witness :
  In [ {| text := "Печенье «Красный бархат» — 130 ₽";
          callback_data := "item:red_velvet_cookie" |} ]
     (_build_sweets_keyboard "cookies")
  /\ In {| text := "Печенье «Красный бархат» — 130 ₽";
           callback_data := "item:red_velvet_cookie" |}
        [ {| text := "Печенье «Красный бархат» — 130 ₽";
             callback_data := "item:red_velvet_cookie" |} ]
  /\ opens_screen "item:red_velvet_cookie" (session ∅).
Proof.
  assert (Hrow : In [ {| text := "Печенье «Красный бархат» — 130 ₽";
                         callback_data := "item:red_velvet_cookie" |} ]
                    (_build_sweets_keyboard "cookies"))
    by (vm_compute; tauto).
  assert (Hbutton : In {| text := "Печенье «Красный бархат» — 130 ₽";
                          callback_data := "item:red_velvet_cookie" |}
                       [ {| text := "Печенье «Красный бархат» — 130 ₽";
                            callback_data := "item:red_velvet_cookie" |} ])
    by (simpl; tauto).
  split; [exact Hrow|]. split; [exact Hbutton|].
  exact (sweets_keyboard_buttons_work "cookies" _ _ (session ∅) Hrow Hbutton).
Defined.

(** X16.  Every button of the item keyboard of a sweet of the catalogue can
    be pressed: the add button adds that sweet, the other two open the
    cart and the menu. *)
Theorem item_keyboard_buttons_work
  (sweet : Sweet) (row : list InlineKeyboardButton)
  (button : InlineKeyboardButton) (w : world) :
  In sweet all_sweets ->
  In row (_build_item_keyboard sweet) ->
  In button row ->
  opens_screen (callback_data button) w.
Proof. exact (item_keyboard_opens sweet row button w). Qed.

Lemma item_keyboard_buttons_work_witness :
  In {| id := "salted_caramel";
        name := "Соленая карамель";
        price_rub := 150;
        description := "Нежная тянучка на сливках с легкой ноткой морской"
                       +:+ " соли." |} all_sweets
  /\ opens_screen "add:salted_caramel" (session ∅).
Proof.
  assert (Hlisted :
            In {| id := "salted_caramel";
                  name := "Соленая карамель";
                  price_rub := 150;
                  description := "Нежная тянучка на сливках с легкой ноткой морской"
                                 +:+ " соли." |} all_sweets)
    by (unfold all_sweets; simpl; tauto).
  split; [exact Hlisted|].
  refine (item_keyboard_buttons_work _
            [ {| text := "Добавить в корзину"; callback_data := "add:salted_caramel" |} ]
            {| text := "Добавить в корзину"; callback_data := "add:salted_caramel" |}
            (session ∅) Hlisted _ _).
  - simpl. left. reflexivity.
  - simpl. left. reflexivity.
Defined.

(** X17.  Every button of the keyboard drawn for the cart of a session can
    be pressed on that session: clear and checkout are only drawn for a
    cart that is not empty, where checkout confirms; the back button opens
    the menu. *)
Theorem cart_keyboard_buttons_work
  (bag : gmap string pyobj) (row : list InlineKeyboardButton)
  (button : InlineKeyboardButton) :
  In row (_build_cart_keyboard (cart_of bag)) ->
  In button row ->
  opens_screen (callback_data button) (session bag).
Proof. exact (cart_keyboard_opens row button (session bag)). Qed.

Lemma cart_keyboard_buttons_work_witness :
  In [ {| text := "Очистить"; callback_data := "cart:clear" |};
       {| text := "Оформить заказ"; callback_data := "cart:checkout" |} ]
     (_build_cart_keyboard
        (cart_of {[ "cart"%string := PyDict [ ("dark_truffle"%string, 1) ] ]}))
  /\ opens_screen "cart:checkout"
       (session {[ "cart"%string := PyDict [ ("dark_truffle"%string, 1) ] ]}).
Proof.
  assert (Hrow :
            In [ {| text := "Очистить"; callback_data := "cart:clear" |};
                 {| text := "Оформить заказ"; callback_data := "cart:checkout" |} ]
               (_build_cart_keyboard
                  (cart_of {[ "cart"%string := PyDict [ ("dark_truffle"%string, 1) ] ]})))
    by (vm_compute; tauto).
  split; [exact Hrow|].
  refine (cart_keyboard_buttons_work _ _
            {| text := "Оформить заказ"; callback_data := "cart:checkout" |} Hrow _).
  simpl. right. left. reflexivity.
Defined.

(** X18.  A callback whose payload is none of the known shapes (not
    ["menu"], and starting with none of the four prefixes) is answered
    with the unknown-command alert alone, and the session bag is left as it
    was.  A query that carries no data at all is such a callback: its
    payload is taken to be empty. *)
Theorem unknown_payload_only_alerts (update : Update) (payload : string) (w : world) :
  payload_of update = Some payload ->
  String.eqb payload "menu" = false ->
  Py.startswith payload "cat:" = false ->
  Py.startswith payload "item:" = false ->
  Py.startswith payload "add:" = false ->
  Py.startswith payload "cart:" = false ->
  handle_callbacks update w =
  Some (tt, {| user_data := user_data w;
               sent := sent w
                       ++ [ answer None false;
                            answer (Some "Неизвестная команда"%string) true ] |}).
Proof.
  unfold payload_of, handle_callbacks.
  destruct (callback_query update) as [query|]; [|discriminate].
  intros [= <-] Hmenu Hcat Hitem Hadd Hcart.
  rewrite bind_await. unfold route.
  rewrite Hmenu, Hcat, Hitem, Hadd, Hcart.
  unfold unknown_callback, await. cbn [user_data sent].
  rewrite <- app_assoc. reflexivity.
Qed.

Lemma unknown_payload_only_alerts_witness :
  payload_of {| callback_query := Some {| data := None |};
                effective_message := false |} = Some ""%string
  /\ handle_callbacks {| callback_query := Some {| data := None |};
                         effective_message := false |} (session ∅) =
     Some (tt, {| user_data := ∅;
                  sent := [ answer None false;
                            answer (Some "Неизвестная команда"%string) true ] |}).
Proof.
  split; [reflexivity|].
  exact (unknown_payload_only_alerts
           {| callback_query := Some {| data := None |}; effective_message := false |}
           "" (session ∅) eq_refl eq_refl eq_refl eq_refl eq_refl eq_refl).
Defined.

(** X19.  Under the ["cart:"] prefix an action other than view, clear and
    checkout falls through to the unknown-command alert.  By then the cart
    has been fetched, so the cart slot of the session holds the cart as a
    dict, with the contents the session had. *)
Theorem unknown_cart_action_alerts (action : string) (w : world) :
  String.eqb action "view" = false ->
  String.eqb action "clear" = false ->
  String.eqb action "checkout" = false ->
  handle_callbacks (press ("cart:" +:+ action)) w =
  Some (tt,
        {| user_data := <[ "cart" := PyDict (cart_of (user_data w)) ]> (user_data w);
           sent := sent w
                   ++ [ answer None false;
                        answer (Some "Неизвестная команда"%string) true ] |})
  /\ cart_of (<[ "cart" := PyDict (cart_of (user_data w)) ]> (user_data w)) =
     cart_of (user_data w).
Proof.
  intros Hview Hclear Hcheckout. split; [|apply cart_of_insert].
  rewrite handle_press, route_cart. unfold bind at 1.
  rewrite _get_cart_normalises, Hview, Hclear, Hcheckout.
  unfold unknown_callback, await. cbn [user_data sent].
  rewrite <- app_assoc. reflexivity.
Qed.

Lemma unknown_cart_action_alerts_witness :
  String.eqb "pay" "view" = false
  /\ String.eqb "pay" "clear" = false
  /\ String.eqb "pay" "checkout" = false
  /\ handle_callbacks (press "cart:pay") (session ∅) =
     Some (tt, {| user_data := <[ "cart" := PyDict (cart_of ∅) ]> ∅;
                  sent := [ answer None false;
                            answer (Some "Неизвестная команда"%string) true ] |}).
Proof.
  split; [reflexivity|]. split; [reflexivity|]. split; [reflexivity|].
  exact (proj1 (unknown_cart_action_alerts "pay" (session ∅) eq_refl eq_refl eq_refl)).
Defined.

(** ** The amount to pay *)

Section Amount.

Implicit Types (cart : Py.dict Z).

Lemma found_price_positive sweet_id sweet :
  _find_sweet_by_id sweet_id = Some sweet -> 0 < price_rub sweet.
Proof.
  intros Hfound. apply listed_price_positive.
  exact (proj2 (find_in_categories_Some _ _ _ Hfound)).
Qed.

Lemma resolvable_sum_cons sweet_id quantity cart :
  resolvable_sum ((sweet_id, quantity) :: cart) =
  match _find_sweet_by_id sweet_id with
  | Some sweet => price_rub sweet * quantity
  | None => 0
  end + resolvable_sum cart.
Proof.
  change ((sweet_id, quantity) :: cart) with ([ (sweet_id, quantity) ] ++ cart).
  rewrite resolvable_sum_app. f_equal.
  unfold resolvable_sum, resolved_entries. simpl.
  destruct (_find_sweet_by_id sweet_id); simpl; lia.
Qed.

Lemma resolvable_sum_nonneg cart :
  positive_quantities cart -> 0 <= resolvable_sum cart.
Proof.
  induction 1 as [|[sweet_id quantity] cart Hq _ IH]; [reflexivity|].
  rewrite resolvable_sum_cons. simpl in Hq.
  destruct (_find_sweet_by_id sweet_id) as [sweet|] eqn:Hfound; [|lia].
  pose proof (found_price_positive _ _ Hfound). nia.
Qed.

Lemma resolvable_sum_positive cart :
  positive_quantities cart -> resolvable_ids cart -> cart <> [] ->
  0 < resolvable_sum cart.
Proof.
  intros Hpos Hres Hne.
  destruct cart as [|[sweet_id quantity] cart]; [congruence|].
  rewrite resolvable_sum_cons.
  inversion Hpos as [|? ? Hq Hpos']; subst.
  inversion Hres as [|? ? [sweet Hfound] _]; subst.
  simpl in Hq, Hfound. rewrite Hfound.
  pose proof (found_price_positive _ _ Hfound).
  pose proof (resolvable_sum_nonneg cart Hpos'). nia.
Qed.

End Amount.

(** X20.  Whatever updates a session with an empty cart goes through, the
    amount its cart text asks for is never negative, and it is strictly
    positive as soon as the cart is not empty. *)
Theorem reachable_total_is_positive
  (bag : gmap string pyobj) (updates : list Update) :
  cart_of bag = [] ->
  exists w',
    run_all handle_callbacks updates (session bag) = Some (tt, w')
    /\ 0 <= cart_total (cart_of (user_data w'))
    /\ (cart_of (user_data w') <> [] -> 0 < cart_total (cart_of (user_data w'))).
Proof.
  intros Hempty.
  destruct (run_all_keeps_cart_sound updates (session bag))
    as (w' & Hrun & Hpos & Hres).
  { cbn [user_data session]. rewrite Hempty. constructor. }
  { cbn [user_data session]. rewrite Hempty. constructor. }
  exists w'. split; [exact Hrun|]. rewrite cart_total_sum. split.
  - exact (resolvable_sum_nonneg _ Hpos).
  - exact (resolvable_sum_positive _ Hpos Hres).
Qed.

Lemma reachable_total_is_positive_witness :
  cart_of ∅ = []
  /\ exists w',
       run_all handle_callbacks
         [ press "add:dark_truffle"; press "add:red_velvet_cookie";
           press "add:dark_truffle" ] (session ∅) = Some (tt, w')
       /\ 0 <= cart_total (cart_of (user_data w')).
Proof.
  assert (Hempty : cart_of ∅ = []) by reflexivity.
  split; [exact Hempty|].
  destruct (reachable_total_is_positive ∅
              [ press "add:dark_truffle"; press "add:red_velvet_cookie";
                press "add:dark_truffle" ] Hempty) as (w' & Hrun & Hnonneg & _).
  exists w'. split; [exact Hrun | exact Hnonneg].
Defined.

(** X21.  The add button on the screen of a sweet adds the sweet that is
    shown: for an id that resolves, the first row of the item keyboard is
    one button, and pressing it raises the quantity stored under that id
    by one. *)
Theorem shown_sweet_is_the_one_added
  (bag : gmap string pyobj) (sweet_id : string) (sweet : Sweet) :
  _find_sweet_by_id sweet_id = Some sweet ->
  exists button bag',
    head (_build_item_keyboard sweet) = Some [ button ]
    /\ handle_callbacks (press (callback_data button)) (session bag) =
       Some (tt, {| user_data := bag';
                    sent := [ answer None false;
                              answer (Some "Добавлено в корзину"%string) false;
                              edit_message_reply_markup (_build_item_keyboard sweet) ] |})
    /\ Py.get (cart_of bag') sweet_id = Some (Py.get_or (cart_of bag) sweet_id 0 + 1).
Proof.
  intros Hfound.
  pose proof (proj1 (find_in_categories_Some _ _ _ Hfound)) as Hid.
  eexists. eexists. split; [reflexivity|]. cbn [callback_data].
  rewrite Hid. split.
  - exact (press_add_world sweet_id sweet (session bag) Hfound).
  - rewrite cart_of_insert. apply get_setitem_eq.
Qed.

Lemma shown_sweet_is_the_one_added_witness :
  _find_sweet_by_id "dark_truffle" =
  Some {| id := "dark_truffle";
          name := "Трюфель 72%";
          price_rub := 280;
          description := "Темный шоколад с насыщенным вкусом какао и"
                         +:+ " хрустящими какао-крупками." |}
  /\ exists button bag' calls,
       handle_callbacks (press (callback_data button)) (session ∅) =
       Some (tt, {| user_data := bag'; sent := calls |})
       /\ Py.get (cart_of bag') "dark_truffle" = Some 1.
Proof.
  split; [reflexivity|].
  destruct (shown_sweet_is_the_one_added ∅ "dark_truffle" _ eq_refl)
    as (button & bag' & _ & Hrun & Hget).
  exists button, bag'. eexists. split; [exact Hrun | exact Hget].
Defined.

(** X22.  On an update without a message the [/cart] command replies
    nothing and raises nothing; it has still fetched the cart, so the cart
    slot of the session holds the cart as a dict, with the contents the
    session had. *)
Theorem cart_command_without_message (update : Update) (w : world) :
  effective_message update = false ->
  cart_command update w =
  Some (tt,
        {| user_data := <[ "cart" := PyDict (cart_of (user_data w)) ]> (user_data w);
           sent := sent w |})
  /\ cart_of (<[ "cart" := PyDict (cart_of (user_data w)) ]> (user_data w)) =
     cart_of (user_data w).
Proof.
  intros Hsilent. split; [|apply cart_of_insert].
  unfold cart_command, bind. rewrite _get_cart_normalises, Hsilent. reflexivity.
Qed.

Lemma cart_command_without_message_witness :
  effective_message {| callback_query := None; effective_message := false |} = false
  /\ cart_command {| callback_query := None; effective_message := false |}
       (session {[ "cart"%string := PyInt 7 ]}) =
     Some (tt,
           {| user_data :=
                <[ "cart" := PyDict (cart_of {[ "cart"%string := PyInt 7 ]}) ]>
                  {[ "cart"%string := PyInt 7 ]};
              sent := [] |}).
Proof.
  split; [reflexivity|].
  exact (proj1 (cart_command_without_message
                  {| callback_query := None; effective_message := false |}
                  (session {[ "cart"%string := PyInt 7 ]}) eq_refl)).
Defined.

(** ** The keyboards a handler draws *)

Section Drawn.

Implicit Types (w : world) (markup : InlineKeyboardMarkup).

Local Ltac one_call :=
  let c := fresh "c" in
  let markup := fresh "markup" in
  let Hin := fresh "Hin" in
  let Hm := fresh "Hm" in
  intros c markup Hin Hm; simpl in Hin;
  repeat (destruct Hin as [<-|Hin];
          [simpl in Hm; try discriminate Hm; injection Hm as <-|]);
  try contradiction.

Lemma found_sweet_listed sweet_id sweet :
  _find_sweet_by_id sweet_id = Some sweet -> In sweet all_sweets.
Proof. intros Hfound. exact (proj2 (find_in_categories_Some _ _ _ Hfound)). Qed.

Lemma route_draws payload w :
  exists w' calls,
    route payload w = Some (tt, w')
    /\ sent w' = sent w ++ calls
    /\ forall c markup,
         In c calls -> markup_of c = Some markup -> pressable w' markup.
Proof.
  unfold route, pressable.
  destruct (String.eqb payload "menu").
  { eexists. eexists. split; [reflexivity|]. split; [reflexivity|].
    one_call. auto. }
  destruct (Py.startswith payload "cat:") eqn:Ecat.
  { apply startswith_inv in Ecat as [rest ->].
    rewrite item_split1_cat, bind_ret.
    destruct (Py.get SWEET_CATALOGUE rest) as [[|? ?]|];
      eexists; eexists; (split; [reflexivity|]); (split; [reflexivity|]);
      one_call. eauto. }
  destruct (Py.startswith payload "item:") eqn:Eitem.
  { apply startswith_inv in Eitem as [rest ->].
    rewrite item_split1_item, bind_ret.
    destruct (_find_sweet_by_id rest) as [sweet|] eqn:Hfound;
      eexists; eexists; (split; [reflexivity|]); (split; [reflexivity|]);
      one_call. pose proof (found_sweet_listed _ _ Hfound). eauto 6. }
  destruct (Py.startswith payload "add:") eqn:Eadd.
  { apply startswith_inv in Eadd as [rest ->].
    rewrite item_split1_add, bind_ret.
    destruct (_find_sweet_by_id rest) as [sweet|] eqn:Hfound.
    - unfold bind at 1. rewrite add_to_cart_run.
      eexists. eexists. split; [reflexivity|]. cbn [sent].
      split; [rewrite <- app_assoc; reflexivity|].
      one_call. pose proof (found_sweet_listed _ _ Hfound). eauto 6.
    - eexists. eexists. split; [reflexivity|]. split; [reflexivity|]. one_call. }
  destruct (Py.startswith payload "cart:") eqn:Ecart.
  { apply startswith_inv in Ecart as [action ->].
    rewrite item_split1_cart, bind_ret.
    unfold bind at 1. rewrite _get_cart_normalises.
    destruct (String.eqb action "view").
    { eexists. eexists. split; [reflexivity|]. split; [reflexivity|].
      one_call. cbn [user_data]. rewrite cart_of_insert. auto 6. }
    destruct (String.eqb action "clear").
    { eexists. eexists. split; [reflexivity|]. split; [reflexivity|].
      one_call. cbn [user_data]. rewrite cart_of_insert. auto 6. }
    destruct (String.eqb action "checkout").
    { destruct (Py.truthy (cart_of (user_data w))); simpl.
      - eexists. eexists. split; [reflexivity|]. split; [reflexivity|].
        one_call. auto.
      - eexists. eexists. split; [reflexivity|]. split; [reflexivity|]. one_call. }
    eexists. eexists. split; [reflexivity|]. split; [reflexivity|]. one_call. }
  eexists. eexists. split; [reflexivity|]. split; [reflexivity|]. one_call.
Qed.

Lemma pressable_opens w markup row button :
  pressable w markup ->
  In row markup -> In button row -> opens_screen (callback_data button) w.
Proof.
  intros [-> | [[category ->] | [(sweet & Hlisted & ->) | ->]]].
  - apply categories_keyboard_opens.
  - apply sweets_keyboard_opens.
  - apply item_keyboard_opens, Hlisted.
  - apply cart_keyboard_opens.
Qed.

End Drawn.

(** X23.  The bot never draws a button that cannot be pressed: whatever a
    callback update makes the handler send, every button of every keyboard
    in it, pressed next on the session as the handler left it, is handled,
    puts a screen or a keyboard on display and raises no alert. *)
Theorem every_drawn_button_works
  (update : Update) (w w' : world) (calls : list call) (c : call)
  (markup : InlineKeyboardMarkup) (row : list InlineKeyboardButton)
  (button : InlineKeyboardButton) :
  handle_callbacks update w = Some (tt, w') ->
  sent w' = sent w ++ calls ->
  In c calls ->
  markup_of c = Some markup ->
  In row markup ->
  In button row ->
  opens_screen (callback_data button) w'.
Proof.
  unfold handle_callbacks.
  destruct (callback_query update) as [query|].
  - rewrite bind_await.
    match goal with
    | |- context [route ?payload ?w1] =>
        destruct (route_draws payload w1) as (w2 & calls2 & -> & Hsent2 & Hdrawn)
    end.
    intros [= <-] Hsent Hc Hm. cbn [sent] in Hsent2.
    rewrite Hsent2, <- app_assoc in Hsent. apply app_inv_head in Hsent. subst calls.
    destruct Hc as [<-|Hc]; [discriminate Hm|].
    apply (pressable_opens w2 markup). exact (Hdrawn c markup Hc Hm).
  - intros [= <-] Hsent Hc.
    rewrite <- (app_nil_r (sent w)) in Hsent at 1.
    apply app_inv_head in Hsent. subst calls. contradiction.
Qed.

Lemma every_drawn_button_works_witness :
  handle_callbacks (press "cart:view")
    (session {[ "cart"%string := PyDict [ ("milk_chocolate"%string, 1) ] ]}) =
  Some (tt,
        {| user_data := {[ "cart"%string := PyDict [ ("milk_chocolate"%string, 1) ] ]};
           sent := [ answer None false;
                     edit_message_text (_format_cart [ ("milk_chocolate"%string, 1) ])
                       None (_build_cart_keyboard [ ("milk_chocolate"%string, 1) ]) ] |})
  /\ opens_screen "cart:checkout"
       {| user_data := {[ "cart"%string := PyDict [ ("milk_chocolate"%string, 1) ] ]};
          sent := [ answer None false;
                    edit_message_text (_format_cart [ ("milk_chocolate"%string, 1) ])
                      None (_build_cart_keyboard [ ("milk_chocolate"%string, 1) ]) ] |}.
Proof.
  assert (Hrun :
            handle_callbacks (press "cart:view")
              (session {[ "cart"%string := PyDict [ ("milk_chocolate"%string, 1) ] ]}) =
            Some (tt,
                  {| user_data :=
                       {[ "cart"%string := PyDict [ ("milk_chocolate"%string, 1) ] ]};
                     sent :=
                       [ answer None false;
                         edit_message_text
                           (_format_cart [ ("milk_chocolate"%string, 1) ]) None
                           (_build_cart_keyboard [ ("milk_chocolate"%string, 1) ]) ] |}))
    by reflexivity.
  split; [exact Hrun|].
  refine (every_drawn_button_works (press "cart:view") _ _
            [ answer None false;
              edit_message_text (_format_cart [ ("milk_chocolate"%string, 1) ]) None
                (_build_cart_keyboard [ ("milk_chocolate"%string, 1) ]) ]
            (edit_message_text (_format_cart [ ("milk_chocolate"%string, 1) ]) None
               (_build_cart_keyboard [ ("milk_chocolate"%string, 1) ]))
            (_build_cart_keyboard [ ("milk_chocolate"%string, 1) ])
            [ {| text := "Очистить"; callback_data := "cart:clear" |};
              {| text := "Оформить заказ"; callback_data := "cart:checkout" |} ]
            {| text := "Оформить заказ"; callback_data := "cart:checkout" |}
            Hrun _ _ _ _ _).
  - reflexivity.
  - simpl. right. left. reflexivity.
  - reflexivity.
  - simpl. left. reflexivity.
  - simpl. right. left. reflexivity.
Defined.

(** ** The cart accessor on unchecked objects *)

Section UntypedCart.

Implicit Types (user_data : gmap string Untyped.obj) (d : Py.dict Untyped.obj).

Lemma untyped_get_cart_run user_data :
  Untyped._get_cart user_data =
  match user_data !! "cart" with
  | Some (Untyped.ODict d) => Untyped.returned (Untyped.ODict d) user_data
  | _ => Untyped.returned (Untyped.ODict [])
           (<[ "cart" := Untyped.ODict [] ]> user_data)
  end.
Proof.
  unfold Untyped._get_cart, Untyped.setdefault.
  destruct (user_data !! "cart") as [o|] eqn:Eslot.
  - destruct o; try reflexivity;
      cbn [Untyped.isinstance_dict negb]; rewrite lookup_insert_eq; reflexivity.
  - reflexivity.
Qed.

Lemma int_valued_get_or d sweet_id :
  Untyped.int_valued d ->
  exists n, Py.get_or d sweet_id (Untyped.OInt 0) = Untyped.OInt n.
Proof.
  intros Hd. unfold Py.get_or.
  destruct (Py.get d sweet_id) as [o|] eqn:E; [|eauto].
  destruct (get_Forall _ _ _ _ Hd E) as [k' Hint]. exact Hint.
Qed.

Lemma int_valued_setitem d sweet_id n :
  Untyped.int_valued d ->
  Untyped.int_valued (Py.setitem d sweet_id (Untyped.OInt n)).
Proof. intros Hd. apply setitem_Forall; [exact Hd|]. intros k'. simpl. eauto. Qed.

(** On a bag whose cart slot is well typed the add goes through and leaves
    the slot well typed. *)
Lemma untyped_add_well_typed user_data sweet_id :
  Untyped.slot_well_typed user_data ->
  exists user_data',
    Untyped.add_to_cart sweet_id user_data = Untyped.returned tt user_data'
    /\ Untyped.slot_well_typed user_data'.
Proof.
  unfold Untyped.slot_well_typed, Untyped.add_to_cart.
  rewrite untyped_get_cart_run.
  destruct (user_data !! "cart") as [o|];
    [destruct o as [| | | |d]|]; intros Htyped;
    try (eexists; split; [reflexivity|]; rewrite lookup_insert_eq;
         repeat constructor; simpl; eauto).
  destruct (int_valued_get_or d sweet_id Htyped) as [n ->].
  eexists. split; [reflexivity|]. rewrite lookup_insert_eq.
  apply int_valued_setitem, Htyped.
Qed.

Lemma inject_get_or (cart : Py.dict Z) sweet_id :
  Py.get_or (map (fun entry => (fst entry, Untyped.OInt (snd entry))) cart)
    sweet_id (Untyped.OInt 0) =
  Untyped.OInt (Py.get_or cart sweet_id 0).
Proof.
  unfold Py.get_or. induction cart as [|[k v] cart IH]; simpl; [reflexivity|].
  destruct (String.eqb k sweet_id); [reflexivity | exact IH].
Qed.

Lemma inject_setitem (cart : Py.dict Z) sweet_id (n : Z) :
  Py.setitem (map (fun entry => (fst entry, Untyped.OInt (snd entry))) cart)
    sweet_id (Untyped.OInt n) =
  map (fun entry => (fst entry, Untyped.OInt (snd entry))) (Py.setitem cart sweet_id n).
Proof.
  induction cart as [|[k v] cart IH]; simpl; [reflexivity|].
  destruct (String.eqb k sweet_id); simpl; [reflexivity | rewrite IH; reflexivity].
Qed.

(** The two models agree on the bags of the typed one: there the unchecked
    accessor returns what [_get_cart] returns, and leaves the same bag. *)
Lemma untyped_get_cart_agrees (bag : gmap string pyobj) :
  exists cart bag',
    _get_cart (session bag) = Some (cart, session bag')
    /\ Untyped._get_cart (inject <$> bag) =
       Untyped.returned (inject (PyDict cart)) (inject <$> bag').
Proof.
  rewrite _get_cart_run, untyped_get_cart_run, lookup_fmap. cbn [user_data session sent].
  destruct (bag !! "cart") as [o|];
    [destruct o as [| | | |d]|]; simpl;
    eexists; eexists; (split; [reflexivity|]); rewrite ?fmap_insert; reflexivity.
Qed.

(** So do the adds. *)
Lemma untyped_add_agrees (bag : gmap string pyobj) sweet_id :
  exists bag',
    add_to_cart sweet_id (session bag) = Some (tt, session bag')
    /\ Untyped.add_to_cart sweet_id (inject <$> bag) =
       Untyped.returned tt (inject <$> bag').
Proof.
  eexists. split; [apply add_to_cart_run|]. cbn [user_data session].
  rewrite cart_of_lookup. unfold Untyped.add_to_cart.
  rewrite untyped_get_cart_run, lookup_fmap, fmap_insert.
  destruct (bag !! "cart") as [o|];
    [destruct o as [| | | |d]|]; simpl;
    rewrite ?insert_insert_eq; try reflexivity.
  rewrite inject_get_or. simpl. rewrite inject_setitem. reflexivity.
Qed.

End UntypedCart.

(** C10, as the code has it.  On every session bag, whatever objects it
    holds, [_get_cart] returns a dict and never raises: a dict in the cart
    slot is returned as it is, with the bag unchanged, and anything else,
    or nothing, is replaced by a fresh empty dict, which is returned; the
    slot then holds the dict returned and no other key is touched.  The
    contents of a stored dict are not looked at.  When the slot was
    missing, held a non-dict or held a dict of integers, the dict returned
    has integer values only and the add that follows goes through and
    leaves such a dict again. *)
Theorem get_cart_is_total_but_unchecked (user_data : gmap string Untyped.obj) :
  exists d user_data',
    Untyped._get_cart user_data = Untyped.returned (Untyped.ODict d) user_data'
    /\ user_data' !! "cart" = Some (Untyped.ODict d)
    /\ (forall key, key <> "cart"%string -> user_data' !! key = user_data !! key)
    /\ match user_data !! "cart" with
       | Some (Untyped.ODict stored) => d = stored /\ user_data' = user_data
       | _ => d = [] /\ user_data' = <[ "cart" := Untyped.ODict [] ]> user_data
       end
    /\ (Untyped.slot_well_typed user_data ->
        Untyped.int_valued d
        /\ forall sweet_id,
             exists user_data'',
               Untyped.add_to_cart sweet_id user_data = Untyped.returned tt user_data''
               /\ Untyped.slot_well_typed user_data'').
Proof.
  rewrite untyped_get_cart_run.
  pose proof (untyped_add_well_typed user_data) as Hadd.
  unfold Untyped.slot_well_typed in *.
  destruct (user_data !! "cart") as [o|] eqn:Eslot.
  - destruct o as [| | | |stored];
      try (exists [], (<[ "cart" := Untyped.ODict [] ]> user_data);
           split; [reflexivity|]; split; [apply lookup_insert_eq|];
           split; [intros key Hkey; apply lookup_insert_ne; congruence|];
           split; [split; reflexivity|];
           intros Htyped; split; [constructor|];
           intros sweet_id; exact (Hadd sweet_id Htyped)).
    exists stored, user_data. split; [reflexivity|]. split; [exact Eslot|].
    split; [reflexivity|]. split; [split; reflexivity|].
    intros Htyped. split; [exact Htyped|].
    intros sweet_id. exact (Hadd sweet_id Htyped).
  - exists [], (<[ "cart" := Untyped.ODict [] ]> user_data).
    split; [reflexivity|]. split; [apply lookup_insert_eq|].
    split; [intros key Hkey; apply lookup_insert_ne; congruence|].
    split; [split; reflexivity|].
    intros Htyped. split; [constructor|].
    intros sweet_id. exact (Hadd sweet_id Htyped).
Qed.

Lemma get_cart_is_total_but_unchecked_witness :
  Untyped.slot_well_typed {[ "cart"%string := Untyped.OStr "oops" ]}
  /\ exists d user_data',
       Untyped._get_cart {[ "cart"%string := Untyped.OStr "oops" ]} =
       Untyped.returned (Untyped.ODict d) user_data'
       /\ Untyped.int_valued d
       /\ exists user_data'',
            Untyped.add_to_cart "dark_truffle" {[ "cart"%string := Untyped.OStr "oops" ]} =
            Untyped.returned tt user_data''.
Proof.
  assert (Htyped : Untyped.slot_well_typed {[ "cart"%string := Untyped.OStr "oops" ]})
    by exact I.
  split; [exact Htyped|].
  destruct (get_cart_is_total_but_unchecked {[ "cart"%string := Untyped.OStr "oops" ]})
    as (d & user_data' & Hrun & _ & _ & _ & Hlater).
  destruct (Hlater Htyped) as [Hints Hadd].
  destruct (Hadd "dark_truffle"%string) as (user_data'' & Hadded & _).
  exists d, user_data'. split; [exact Hrun|]. split; [exact Hints|].
  exists user_data''. exact Hadded.
Defined.

(** C10, as stated, fails: a dict with a string where the quantity should
    be passes the [isinstance] test, so [_get_cart] returns it as it is,
    and the add that follows raises [TypeError] at [cart.get(...) + 1]. *)
Lemma get_cart_hands_on_ill_typed_dict :
  Untyped._get_cart
    {[ "cart"%string := Untyped.ODict [ ("milk_chocolate"%string, Untyped.OStr "2") ] ]} =
  Untyped.returned
    (Untyped.ODict [ ("milk_chocolate"%string, Untyped.OStr "2") ])
    {[ "cart"%string := Untyped.ODict [ ("milk_chocolate"%string, Untyped.OStr "2") ] ]}
  /\ ~ Untyped.int_valued [ ("milk_chocolate"%string, Untyped.OStr "2") ]
  /\ Untyped.add_to_cart "milk_chocolate"
       {[ "cart"%string :=
            Untyped.ODict [ ("milk_chocolate"%string, Untyped.OStr "2") ] ]} =
     Untyped.raised Untyped.TypeError
       {[ "cart"%string := Untyped.ODict [ ("milk_chocolate"%string, Untyped.OStr "2") ] ]}.
Proof.
  split; [reflexivity|]. split; [|reflexivity].
  intros Hints. inversion Hints as [|? ? [n Hn] _]. discriminate Hn.
Qed.
